(** * Web Security Suite: the decision logic of the extension

    A shallow embedding of the classifiers found in
    [web-security-suite/background.js] and [web-security-suite/content.js]:
    the reputation evaluator ([checkUrlReputation], [getRiskLabel] and the
    [checkReputation] message branch), the YouTube study-mode keyword
    classifier ([hasStudyKeyword], [hasBlockKeyword], [shouldPlayVideo]),
    the form analyser ([getDomain], [isSensitiveInput], [analyzeForm]) and
    the shortener matcher ([detectUrlShortener] and the [analyzeShortener]
    message branch).  Around them: the scrapers [getVideoTitle] and
    [getVideoDescription], the blocking and clean-up passes over the
    YouTube page, [scanFormsOnPage], [init] and the storage listener of
    the content script, and, from [web-security-suite/popup.js], the
    display of a reply ([formatThreatType], [displayResults]) and the
    custom-URL button.

    Text is modelled by [string] (a sequence of 8-bit code units).  The
    JavaScript string methods the source calls are written out below on the
    ASCII alphabet: [toLowerCase] folds A-Z only and [trim] strips the six
    ASCII white-space characters; every other code unit is left alone. *)

From Stdlib Require Import ZArith List Bool Ascii String Lia.
Import ListNotations.

Open Scope string_scope.
Open Scope bool_scope.

(* ================================================================= *)
(** ** JavaScript string methods *)

Module JS.

(** [c] is one of A..Z. *)
Definition isUpper (c : ascii) : bool :=
  (65 <=? nat_of_ascii c)%nat && (nat_of_ascii c <=? 90)%nat.

Definition toLowerChar (c : ascii) : ascii :=
  if isUpper c then ascii_of_nat (nat_of_ascii c + 32) else c.

(** [String.prototype.toLowerCase]. *)
Fixpoint toLowerCase (s : string) : string :=
  match s with
  | EmptyString => EmptyString
  | String c s' => String (toLowerChar c) (toLowerCase s')
  end.

(** TAB, LF, VT, FF, CR and SPACE. *)
Definition isWhiteSpace (c : ascii) : bool :=
  let n := nat_of_ascii c in
  ((9 <=? n)%nat && (n <=? 13)%nat) || (n =? 32)%nat.

(** [String.prototype.trimStart]. *)
Fixpoint trimStart (s : string) : string :=
  match s with
  | EmptyString => EmptyString
  | String c s' => if isWhiteSpace c then trimStart s' else s
  end.

(** [String.prototype.trimEnd]. *)
Fixpoint trimEnd (s : string) : string :=
  match s with
  | EmptyString => EmptyString
  | String c s' =>
      match trimEnd s' with
      | EmptyString => if isWhiteSpace c then EmptyString else String c EmptyString
      | t => String c t
      end
  end.

(** [String.prototype.trim]. *)
Definition trim (s : string) : string := trimEnd (trimStart s).

(** [s.startsWith(p)]. *)
Fixpoint startsWith (s p : string) {struct p} : bool :=
  match p with
  | EmptyString => true
  | String b p' =>
      match s with
      | EmptyString => false
      | String a s' => Ascii.eqb a b && startsWith s' p'
      end
  end.

(** [s.includes(k)]: [k] occurs in [s] at some offset. *)
Fixpoint includes (s k : string) : bool :=
  startsWith s k ||
  match s with
  | EmptyString => false
  | String _ s' => includes s' k
  end.

(** The suffix of [s] from offset [n] on ([s.slice(n)] for [n >= 0]). *)
Fixpoint drop (n : nat) (s : string) : string :=
  match n, s with
  | O, _ => s
  | S _, EmptyString => EmptyString
  | S n', String _ s' => drop n' s'
  end.

(** [s.replace(pat, rep)] with a string pattern: only the first
    occurrence of [pat], wherever it is, is replaced. *)
Fixpoint replace (s pat rep : string) : string :=
  if startsWith s pat then rep ++ drop (String.length pat) s
  else match s with
       | EmptyString => EmptyString
       | String a s' => String a (replace s' pat rep)
       end.

(** [s.substring(0, n)]. *)
Definition substring0 (n : nat) (s : string) : string := String.substring 0 n s.

(** Every code unit of [s] is white space. *)
Fixpoint blank (s : string) : bool :=
  match s with
  | EmptyString => true
  | String c s' => isWhiteSpace c && blank s'
  end.

End JS.

(* ================================================================= *)
(** ** background.js: URL reputation check *)

Module Background.

(** One entry of [data.matches] in the Safe Browsing response. *)
Record ThreatMatch := { match_threatType : string }.

(** The parsed response body [data]; [matches] is absent ([None]) when
    the service reports nothing. *)
Record SafeBrowsingData := { matches : option (list ThreatMatch) }.

(** How the [try] block of [checkUrlReputation] ends: [fetch] and
    [response.json()] deliver a parsed body, or an exception is raised
    on the way (the request fails, the body is not JSON) and [catch]
    receives it with its [message]. *)
Inductive LookupOutcome :=
| Fulfilled (data : SafeBrowsingData)
| Rejected (message : string).

Record ReputationResult := {
  status : string;
  threatType : string;
  riskScore : Z;
  url : string;
  error : option string   (* [None] is [undefined] *)
}.

(** [checkUrlReputation(url)], with the outcome of the network exchange
    as an explicit argument. *)
Definition checkUrlReputation (url : string) (outcome : LookupOutcome)
  : ReputationResult :=
  match outcome with
  | Fulfilled data =>
      match matches data with
      | Some (m :: _) =>
          {| status := "Malicious";
             threatType := match_threatType m;
             riskScore := 40;
             url := url;
             error := None |}
      | _ =>
          {| status := "Safe";
             threatType := "None";
             riskScore := 0;
             url := url;
             error := None |}
      end
  | Rejected message =>
      {| status := "Error";
         threatType := "Unknown";
         riskScore := 0;
         url := url;
         error := Some message |}
  end.

(** [getRiskLabel(riskScore)]. *)
Definition getRiskLabel (riskScore : Z) : string :=
  if (0 <=? riskScore)%Z && (riskScore <=? 30)%Z then "Safe"
  else if (31 <=? riskScore)%Z && (riskScore <=? 60)%Z then "Suspicious"
  else if (61 <=? riskScore)%Z && (riskScore <=? 100)%Z then "High Risk"
  else "Unknown".

(** The [data] object of a successful reply. *)
Record ReputationData := {
  data_url : string;
  data_status : string;
  data_threatType : string;
  data_riskScore : Z;
  data_riskLabel : string;
  data_error : option string   (* [None] is [null] *)
}.

(** The argument of [sendResponse]. *)
Inductive Response :=
| Success (data : ReputationData)       (* [{success: true, data}] *)
| Failure (error : string).             (* [{success: false, error}] *)

(** [x || null] for [x] a string or [undefined]: the empty string is
    falsy. *)
Definition orNull (x : option string) : option string :=
  match x with
  | Some m => if String.eqb m EmptyString then None else Some m
  | None => None
  end.

(** The [checkReputation] branch of the message listener.  Nothing in
    its [try] block throws ([checkUrlReputation] catches its own
    errors), so the reply is always the [success: true] one. *)
Definition onCheckReputation (request_url : string) (outcome : LookupOutcome)
  : Response :=
  let url := request_url in
  let result := checkUrlReputation url outcome in
  let riskLabel := getRiskLabel (riskScore result) in
  Success {| data_url := Background.url result;
             data_status := status result;
             data_threatType := threatType result;
             data_riskScore := riskScore result;
             data_riskLabel := riskLabel;
             data_error := orNull (error result) |}.

End Background.

(* ================================================================= *)
(** ** content.js: study mode, form analysis, shortener detection *)

Module Content.
Import JS.

(** *** Option 2: YouTube study mode *)

Definition STUDY_KEYWORDS : list string := [
  "lecture series"; "class recording"; "course material";
  "syllabus"; "curriculum"; "academic lecture";
  "concept explanation"; "theory"; "numericals";
  "problem solving"; "worked examples"; "solutions explained";
  "proof"; "derivation"; "formula"; "equations"; "lab experiment"; "practical session"; "simulation";
  "case study"; "research methodology"; "data interpretation";
  "statistical analysis"; "regression"; "classification";
  "probability"; "bayes theorem"; "linear algebra"; "matrix"; "vector"; "calculus"; "integration"; "differentiation"; "code walkthrough"; "live coding";
  "debugging"; "error fixing"; "stack trace";
  "complexity analysis"; "time complexity"; "space complexity";
  "big o notation"; "interview preparation";
  "university lecture"; "college lecture";
  "nptel lecture"; "iit lecture"; "mit lecture";
  "stanford lecture"; "harvard lecture";
  "semester exam"; "internal assessment";
  "final exam review"; "exam solutions"; "exam discussion";
  "tutorial"; "lecture"; "course"; "class"; "learn"; "education"; "educational";
  "lesson"; "training"; "workshop"; "seminar"; "webinar"; "guide"; "instruction";
  "how to"; "step by step"; "beginners guide"; "for beginners"; "introduction to";
  "crash course"; "full course"; "complete course"; "masterclass"; "online course";
  "math"; "mathematics"; "algebra"; "calculus"; "geometry"; "trigonometry"; "statistics";
  "physics"; "chemistry"; "biology"; "science"; "geography"; "history"; "economics";
  "psychology"; "sociology"; "philosophy"; "literature"; "linguistics"; "grammar";
  "vocabulary"; "language learning"; "foreign language";
  "programming"; "coding"; "software"; "development"; "computer science"; "cs";
  "python"; "java"; "javascript"; "typescript"; "c++"; "c#"; "php"; "ruby"; "go"; "rust";
  "html"; "css"; "react"; "angular"; "vue"; "node.js"; "express"; "django"; "flask";
  "database"; "sql"; "mongodb"; "mysql"; "postgresql";
  "algorithm"; "data structure"; "data structures"; "oop"; "object oriented";
  "machine learning"; "ml"; "artificial intelligence"; "ai"; "deep learning"; "neural network";
  "data science"; "data analysis"; "big data"; "analytics";
  "cybersecurity"; "network security"; "information security";
  "web development"; "frontend"; "backend"; "full stack"; "mobile development";
  "devops"; "cloud"; "aws"; "azure"; "google cloud"; "docker"; "kubernetes";
  "engineering"; "mechanical"; "civil"; "electrical"; "electronics"; "robotics";
  "automation"; "iot"; "internet of things"; "embedded"; "arduino"; "raspberry pi";
  "3d printing"; "cad"; "design"; "architecture";
  "business"; "management"; "leadership"; "marketing"; "digital marketing"; "seo";
  "finance"; "accounting"; "investment"; "stock market"; "trading"; "cryptocurrency";
  "entrepreneurship"; "startup"; "project management"; "agile"; "scrum";
  "career"; "job interview"; "resume"; "cv"; "public speaking"; "communication";
  "exam"; "test"; "quiz"; "preparation"; "competitive exam"; "entrance exam";
  "certification"; "certificate"; "degree"; "diploma"; "mooc";
  "udemy"; "coursera"; "edx"; "khan academy"; "skillshare"; "linkedin learning";
  "mit opencourseware"; "stanford online"; "harvard online"; "nptel"; "swayam";
  "school"; "high school"; "secondary school"; "college"; "university";
  "undergraduate"; "graduate"; "postgraduate"; "phd"; "research";
  "thesis"; "dissertation"; "paper"; "publication"; "journal";
  "quantum physics"; "astronomy"; "astrophysics"; "cosmology";
  "genetics"; "evolution"; "microbiology"; "organic chemistry"; "inorganic chemistry";
  "physical chemistry"; "thermodynamics"; "electromagnetism"; "optics";
  "programming interview"; "coding interview"; "leetcode"; "hackerrank";
  "system design"; "design pattern"; "software architecture";
  "jee"; "neet"; "gate"; "upsc"; "ias"; "ips"; "cat"; "mat"; "xat";
  "cbse"; "icse"; "ncert"; "board exam"; "competitive";
  "iit jee"; "medical entrance"; "engineering entrance";
  "study with me"; "pomodoro"; "study technique"; "study tips"; "study method";
  "note taking"; "mind mapping"; "flashcards"; "anki"; "spaced repetition";
  "active recall"; "feynman technique"; "pomodoro technique";
  "english"; "spanish"; "french"; "german"; "chinese"; "japanese"; "korean";
  "hindi"; "sanskrit"; "tamil"; "telugu"; "malayalam"; "kannada"; "bengali";
  "marathi"; "gujarati"; "punjabi"; "urdu"
].

(** The block list; the apostrophe of the 100th-odd entry is U+2019,
    kept as its UTF-8 code units. *)
Definition BLOCK_KEYWORDS : list string := [
  "song"; "songs"; "music"; "Mix"; "Shorts"; "shorts"; "musical"; "entertainment"; "movie"; "film"; "cinema";
  "game"; "games"; "gaming"; "playthrough"; "walkthrough"; "gameplay";
  "vlog"; "vlogging"; "daily vlog"; "lifestyle"; "fashion"; "beauty"; "makeup";
  "comedy"; "funny"; "joke"; "prank"; "challenge"; "memes"; "meme";
  "celebrities"; "celebrity"; "gossip"; "rumor"; "scandal";
  "sports"; "football"; "soccer"; "basketball"; "cricket"; "tennis"; "golf";
  "cooking"; "recipe"; "food"; "restaurant"; "travel"; "vacation"; "holiday";
  "shopping"; "haul"; "unboxing"; "review"; "product review";
  "asmr"; "satisfying"; "relaxing"; "meditation"; "sleep";
  "anime"; "manga"; "cartoon"; "animation"; "netflix"; "hbo"; "disney";
  "party"; "nightlife"; "club"; "dance"; "dancing";
  "dating"; "relationship"; "love"; "romance";
  "horror"; "scary"; "thriller"; "action"; "adventure";
  "trailer"; "teaser"; "preview";
  "podcast"; "talk show"; "interview";
  "short film"; "documentary"; "series";
  "fortnite"; "minecraft"; "roblox"; "valorant"; "cod"; "call of duty";
  "stream"; "livestream"; "twitch";
  "tiktok"; "reels"; "shorts"; "compilation"; "highlights";
  "motivation"; "inspirational"; "self-help";
  "workout"; "fitness"; "gym"; "exercise"; "trending"; "must watch";
  "you won’t believe"; "shocking";
  "epic"; "crazy"; "insane";
  "watch till end"; "emotional"; "reaction video";
  "roasting"; "exposed"; "instagram"; "snapchat"; "whatsapp";
  "influencer"; "creator"; "yoga"
].

(** The common body of [hasStudyKeyword] and [hasBlockKeyword]: the
    guard on empty or white-space-only text, then the [for ... of] scan
    with its early [return true]. *)
Definition hasKeywordOf (KEYWORDS : list string) (text : string) : bool :=
  if String.eqb text EmptyString || String.eqb (trim text) EmptyString then false
  else
    let lowerText := toLowerCase text in
    existsb (fun keyword => includes lowerText (toLowerCase keyword)) KEYWORDS.

Definition hasStudyKeyword (text : string) : bool :=
  hasKeywordOf STUDY_KEYWORDS text.

Definition hasBlockKeyword (text : string) : bool :=
  hasKeywordOf BLOCK_KEYWORDS text.

(** A video element, as far as the classifier sees it: the two texts
    that [getVideoTitle] and [getVideoDescription] scrape from it. *)
Record VideoElement := {
  getVideoTitle : string;
  getVideoDescription : string
}.

(** [shouldPlayVideo(videoElement)]: [true] plays (Allow), [false]
    blocks. *)
Definition shouldPlayVideo (videoElement : VideoElement) : bool :=
  let title := getVideoTitle videoElement in
  let description := getVideoDescription videoElement in
  if hasBlockKeyword title || hasBlockKeyword description then false
  else
    let hasTitleKeyword := hasStudyKeyword title in
    let hasDescriptionKeyword := hasStudyKeyword description in
    hasTitleKeyword || hasDescriptionKeyword.

(** *** The page the content script runs in *)

(** What the script reads from its environment: [window.location] and
    the platform's URL parser.  [URL_hostname u] is
    [new URL(u).hostname], or [None] when the constructor throws. *)
Record Page := {
  hostname : string;                        (* window.location.hostname *)
  href : string;                            (* window.location.href *)
  URL_hostname : string -> option string
}.

(** *** Option 3: form security analysis *)

(** [getDomain(url)]. *)
Definition getDomain (window : Page) (url : string) : string :=
  if String.eqb url EmptyString || String.eqb url "#" then hostname window
  else if startsWith url "/" || negb (includes url "://") then hostname window
  else match URL_hostname window url with
       | Some h => h
       | None => hostname window          (* catch (e) *)
       end.

(** An element below a form: its tag and the three properties the
    analyser reads.  A missing [name] or [id] is the empty string, on
    which [x || ''] is the identity. *)
Record Element := {
  localName : string;
  type : string;
  name : string;
  id : string
}.

Definition cardKeywords : list string :=
  ["card"; "credit"; "debit"; "cvv"; "cvc"; "expiry"].

(** [isSensitiveInput(input)]. *)
Definition isSensitiveInput (input : Element) : bool :=
  let type := toLowerCase (type input) in
  let name := toLowerCase (name input) in
  let id := toLowerCase (id input) in
  if String.eqb type "password" then true
  else if String.eqb type "email" then true
  else
    let isCreditCard :=
      existsb (fun keyword => includes name keyword || includes id keyword)
              cardKeywords in
    isCreditCard.

(** A form: its [action] property and its descendant elements in
    document order. *)
Record Form := {
  action : string;
  descendants : list Element
}.

(** [form.querySelectorAll('input')]. *)
Definition querySelectorAll_input (form : Form) : list Element :=
  filter (fun e => String.eqb (localName e) "input") (descendants form).

Record FormAnalysis := {
  form : Form;
  formDomain : string;
  currentDomain : string;
  sensitiveInputs : list Element;
  isSuspicious : bool
}.

(** [analyzeForm(form)].  No step of the [try] block throws on this
    data, so its [catch] branch has no counterpart here. *)
Definition analyzeForm (window : Page) (form : Form) : FormAnalysis :=
  let formAction := action form in                     (* form.action || '' *)
  let formDomain := getDomain window formAction in
  let currentDomain := hostname window in
  let inputs := querySelectorAll_input form in
  let sensitiveInputs := filter (fun input => isSensitiveInput input) inputs in
  let isSuspicious :=
    (0 <? List.length sensitiveInputs)%nat && negb (String.eqb formDomain currentDomain) in
  {| form := form;
     formDomain := formDomain;
     currentDomain := currentDomain;
     sensitiveInputs := sensitiveInputs;
     isSuspicious := isSuspicious |}.

(** *** Option 4: URL shortener detection *)

Definition URL_SHORTENERS : list string := [
  "bit.ly"; "tinyurl.com"; "goo.gl"; "ow.ly"; "short.link";
  "t.co"; "buff.ly"; "adf.ly"; "is.gd"; "cli.gs";
  "tiny.cc"; "u.to"; "j.mp"; "tr.im"; "soo.gd";
  "rebrand.ly"; "bl.ink"; "shorturl.at"; "cutt.ly"; "s.id";
  "bitly.com"; "shorturl.com"; "miniurl.com"; "snip.ly"
].

(** [URL_SHORTENERS.some(shortener => d === shortener)]. *)
Definition someShortener (d : string) : bool :=
  existsb (fun shortener => String.eqb d shortener) URL_SHORTENERS.

Record ShortenerResult := {
  isShortener : bool;
  domain : string;
  url : string
}.

(** [detectUrlShortener()]. *)
Definition detectUrlShortener (window : Page) : ShortenerResult :=
  let currentDomain := replace (hostname window) "www." EmptyString in
  let isShortener := someShortener currentDomain in
  {| isShortener := isShortener;
     domain := currentDomain;
     url := href window |}.

(** An anchor matched by [a[href]]. *)
Record Link := {
  link_href : string;
  textContent : string
}.

(** An entry of [shortenedLinks]. *)
Record ShortenedLink := {
  sl_url : string;
  sl_domain : string;
  sl_text : string
}.

(** The body of [links.forEach(link => ...)] in the [analyzeShortener]
    branch: the array [shortenedLinks] before the visit, and after. *)
Definition visitLink (window : Page) (shortenedLinks : list ShortenedLink)
           (link : Link) : list ShortenedLink :=
  let href := link_href link in
  match URL_hostname window href with
  | None => shortenedLinks                            (* skip invalid URLs *)
  | Some h =>
      let linkDomain := replace h "www." EmptyString in
      let isShortened := someShortener linkDomain in
      if isShortened then
        shortenedLinks ++
          [ {| sl_url := href;
               sl_domain := linkDomain;
               sl_text := substring0 50 (trim (textContent link)) |} ]
      else shortenedLinks
  end.

(** The [linksFound] field of the reply: [shortenedLinks] after the
    [forEach] over [links]. *)
Definition linksFound (window : Page) (links : list Link) : list ShortenedLink :=
  fold_left (visitLink window) links [].

(** The [data] of the [analyzeShortener] reply. *)
Record ShortenerReport := {
  currentUrl : ShortenerResult;
  report_linksFound : list ShortenedLink
}.

Definition onAnalyzeShortener (window : Page) (links : list Link) : ShortenerReport :=
  let shortenerResult := detectUrlShortener window in
  {| currentUrl := shortenerResult;
     report_linksFound := linksFound window links |}.

End Content.

(* ================================================================= *)
(** ** Vocabulary of the specification *)

Module Spec.
Import JS Background Content.

(** [keyword] occurs in [text] as a substring, letter case ignored. *)
Definition containsCI (text keyword : string) : Prop :=
  exists pre post, toLowerCase text = pre ++ toLowerCase keyword ++ post.

(** Some keyword of the set occurs in [text]. *)
Definition matchesSet (KEYWORDS : list string) (text : string) : Prop :=
  exists keyword, In keyword KEYWORDS /\ containsCI text keyword.

(** Neither keyword set matches the title or the description. *)
Definition noKeywordMatch (v : VideoElement) : Prop :=
  ~ matchesSet BLOCK_KEYWORDS (getVideoTitle v) /\
  ~ matchesSet BLOCK_KEYWORDS (getVideoDescription v) /\
  ~ matchesSet STUDY_KEYWORDS (getVideoTitle v) /\
  ~ matchesSet STUDY_KEYWORDS (getVideoDescription v).

(** Every keyword of the set has a visible (non white-space) character. *)
Definition visibleKeywords (KEYWORDS : list string) : bool :=
  forallb (fun keyword => negb (blank (toLowerCase keyword))) KEYWORDS.

(** [ThreatVerdict.matched]: the service returned at least one match
    ([data.matches && data.matches.length > 0]). *)
Definition matched (data : SafeBrowsingData) : bool :=
  match matches data with
  | Some ms => (0 <? List.length ms)%nat
  | None => false
  end.

(** The hostname normalisation as the specification words it: a leading
    [www.] is stripped, nothing else. *)
Definition stripLeadingWww (h : string) : string :=
  if startsWith h "www." then drop 4 h else h.

(** The shortener test as the specification words it. *)
Definition isShortener_spec (h : string) : bool :=
  someShortener (stripLeadingWww h).



(** The normalised domain of a link as the specification words it: the
    hostname of its [href], when that parses, with a leading [www.]
    stripped. *)
Definition linkDomain_spec (window : Page) (l : Link) : option string :=
  option_map stripLeadingWww (URL_hostname window (link_href l)).

(** The link matches the shortener set as the specification words it. *)
Definition isShortenedLink_spec (window : Page) (l : Link) : bool :=
  match linkDomain_spec window l with
  | Some d => someShortener d
  | None => false
  end.

(** The links [findShortenedLinks] is to return, as the specification
    words it: the matching ones, in the order of the input, repeats
    kept. *)
Definition findShortenedLinks_spec (window : Page) (links : list Link) : list Link :=
  filter (isShortenedLink_spec window) links.

End Spec.

(* ================================================================= *)
(** ** The link scan, link by link *)

Module LinkScan.
Import JS Content.

(** The [linkDomain] that the scan computes for a link whose [href]
    parses: the code's expression [hostname.replace('www.', '')], which
    removes the first [www.] wherever it stands. *)
Definition scannedDomain (window : Page) (l : Link) : option string :=
  option_map (fun h => replace h "www." EmptyString) (URL_hostname window (link_href l)).

(** The scan pushes an entry for the link ([isShortened] is true). *)
Definition isReported (window : Page) (l : Link) : bool :=
  match scannedDomain window l with
  | Some d => someShortener d
  | None => false
  end.

(** The entry the scan pushes for a link. *)
Definition entryOf (window : Page) (l : Link) : ShortenedLink :=
  {| sl_url := link_href l;
     sl_domain := match scannedDomain window l with Some d => d | None => EmptyString end;
     sl_text := substring0 50 (trim (textContent l)) |}.

End LinkScan.

(* ================================================================= *)
(** ** A concrete page, for running the model *)

Module Sample.
Import JS Content.

Definition isLetter (c : ascii) : bool :=
  isUpper c || ((97 <=? nat_of_ascii c)%nat && (nat_of_ascii c <=? 122)%nat).

(** The host part: everything up to the first [/], [?], [#] or [:]. *)
Fixpoint takeHost (s : string) : string :=
  match s with
  | EmptyString => EmptyString
  | String c s' =>
      if existsb (Ascii.eqb c) ["/"; "?"; "#"; ":"]%char then EmptyString
      else String c (takeHost s')
  end.

(** The text after [scheme://], for an alphabetic scheme. *)
Fixpoint afterScheme (s : string) : option string :=
  match s with
  | EmptyString => None
  | String c s' =>
      if startsWith s "://" then Some (drop 3 s)
      else if isLetter c then afterScheme s' else None
  end.

(** A reduced reading of [new URL(u).hostname], enough for the examples:
    it accepts [scheme://host...] with a non-empty alphabetic scheme and
    lower-cases the host; every other string is rejected, as the platform
    parser rejects a string with no scheme. *)
Definition sampleURL_hostname (u : string) : option string :=
  match u with
  | EmptyString => None
  | String c _ =>
      if isLetter c
      then option_map (fun r => toLowerCase (takeHost r)) (afterScheme u)
      else None
  end.

(** The page at [https://host/]. *)
Definition pageAt (host : string) : Page :=
  {| hostname := host;
     href := "https://" ++ host ++ "/";
     URL_hostname := sampleURL_hostname |}.

Definition passwordField : Element :=
  {| localName := "input"; type := "password"; name := "pw"; id := EmptyString |}.

Definition cardTextarea : Element :=
  {| localName := "textarea"; type := "textarea"; name := "creditcard"; id := "card-number" |}.

End Sample.

(* ================================================================= *)
(** ** content.js: scraping the title and the description of a video *)

Module Scrape.
Import JS.

(** A video renderer as the two scrapers read it. *)
Record VideoDom := {
  (** [querySelector(selector)]: the [textContent] of the first matching
      descendant, or [None] when nothing matches. *)
  querySelector_textContent : string -> option string;
  (** [getAttribute('aria-label')], when the attribute is there. *)
  aria_label : option string;
  (** The [textContent] of each descendant matched by
      [querySelectorAll('yt-formatted-string, span')], in document order. *)
  metadataLines : list string
}.

(** [element && element.textContent && element.textContent.trim() !== '']. *)
Definition hasVisibleText (textContent : string) : bool :=
  negb (String.eqb textContent EmptyString) &&
  negb (String.eqb (trim textContent) EmptyString).

(** The [for (const selector of ...)] loop of both scrapers: the trimmed
    text of the first selector that finds visible text. *)
Fixpoint firstVisibleText (q : string -> option string) (selectors : list string)
  : option string :=
  match selectors with
  | [] => None
  | selector :: rest =>
      match q selector with
      | Some textContent =>
          if hasVisibleText textContent then Some (trim textContent)
          else firstVisibleText q rest
      | None => firstVisibleText q rest
      end
  end.

Definition titleSelectors : list string :=
  ["#video-title"; "#video-title-link"; ".title"; "yt-formatted-string"].

(** [getVideoTitle(videoElement)]. *)
Definition getVideoTitle (videoElement : VideoDom) : string :=
  match firstVisibleText (querySelector_textContent videoElement) titleSelectors with
  | Some text => text
  | None =>
      match aria_label videoElement with
      | Some label => trim label
      | None => EmptyString
      end
  end.

(** The double quote, for the attribute selectors. *)
Definition dquote : string := String (ascii_of_nat 34) EmptyString.

Definition descriptionSelectors : list string :=
  ["#description-text";
   "ytd-video-description-transcript-snippet-renderer";
   "#description";
   ".ytd-video-secondary-info-renderer";
   "yt-attributed-string";
   "[id*=" ++ dquote ++ "description" ++ dquote ++ "]";
   "[class*=" ++ dquote ++ "description" ++ dquote ++ "]"].

(** The body of [metadataLines.forEach(element => ...)]: [descriptionText]
    before the visit, and after. *)
Definition visitMetadataLine (descriptionText textContent : string) : string :=
  if hasVisibleText textContent then
    let text := trim textContent in
    if (50 <? String.length text)%nat && negb (includes text "•")
       && negb (includes text "views")
    then descriptionText ++ " " ++ text
    else descriptionText
  else descriptionText.

(** [getVideoDescription(videoElement)]. *)
Definition getVideoDescription (videoElement : VideoDom) : string :=
  match firstVisibleText (querySelector_textContent videoElement) descriptionSelectors with
  | Some text => text
  | None =>
      let descriptionText :=
        fold_left visitMetadataLine (metadataLines videoElement) EmptyString in
      trim descriptionText
  end.

(** The two texts [shouldPlayVideo] works on. *)
Definition scraped (videoElement : VideoDom) : Content.VideoElement :=
  {| Content.getVideoTitle := getVideoTitle videoElement;
     Content.getVideoDescription := getVideoDescription videoElement |}.

(** [shouldPlayVideo(videoElement)] on the renderer itself. *)
Definition shouldPlayVideo (videoElement : VideoDom) : bool :=
  Content.shouldPlayVideo (scraped videoElement).

End Scrape.

(* ================================================================= *)
(** ** content.js: blocking and unblocking on YouTube *)

Module Study.
Import JS Content.

(** [isYouTube()]. *)
Definition isYouTube (window : Page) : bool :=
  includes (hostname window) "youtube.com".

(** The inline style of an anchor below a video renderer. *)
Record Anchor := {
  pointerEvents : string;
  cursor : string
}.

(** An element the study mode may touch: its tag, its [title] attribute,
    what the scrapers read from it, its inline style, the number of
    [.study-overlay] children and its anchors.  These elements are taken
    not to be nested in one another, and the overlay, an empty [div],
    adds nothing to what the scrapers read. *)
Record Node := {
  tagName : string;
  title : option string;
  view : Scrape.VideoDom;
  display : string;
  opacity : string;
  position : string;
  studyOverlays : nat;
  anchors : list Anchor
}.

(** [#movie_player]. *)
Record Player := {
  player_opacity : string;
  player_position : string;
  watchOverlays : nat
}.

Record Document := {
  nodes : list Node;
  player : option Player;
  pathname : string;                    (* window.location.pathname *)
  (** [textContent] of [h1.ytd-watch-metadata yt-formatted-string]. *)
  watchTitle : option string;
  (** [textContent] of [#description-text, #description, ytd-text-container]. *)
  watchDescription : option string
}.

Definition withNodes (d : Document) (ns : list Node) : Document :=
  {| nodes := ns; player := player d; pathname := pathname d;
     watchTitle := watchTitle d; watchDescription := watchDescription d |}.

Definition withPlayer (d : Document) (p : option Player) : Document :=
  {| nodes := nodes d; player := p; pathname := pathname d;
     watchTitle := watchTitle d; watchDescription := watchDescription d |}.

(** [ytd-reel-shelf-renderer, ytd-reel-item-renderer]. *)
Definition isReelRenderer (n : Node) : bool :=
  String.eqb (tagName n) "ytd-reel-shelf-renderer" ||
  String.eqb (tagName n) "ytd-reel-item-renderer".

(** [ytd-reel-shelf-renderer, ytd-reel-item-renderer, [title*="Shorts"]]. *)
Definition matchesShortsSelector (n : Node) : bool :=
  isReelRenderer n ||
  match title n with
  | Some t => includes t "Shorts"
  | None => false
  end.

(** [short.style.display = 'none'] on the elements of [shortsElements]. *)
Definition hideShort (n : Node) : Node :=
  if matchesShortsSelector n then
    {| tagName := tagName n; title := title n; view := view n;
       display := "none"; opacity := opacity n; position := position n;
       studyOverlays := studyOverlays n; anchors := anchors n |}
  else n.

Definition disabledAnchor (link : Anchor) : Anchor :=
  {| pointerEvents := "none"; cursor := "not-allowed" |}.

Definition enabledAnchor (link : Anchor) : Anchor :=
  {| pointerEvents := EmptyString; cursor := EmptyString |}.

(** The body of [videos.forEach(video => ...)]. *)
Definition visitVideo (video : Node) : Node :=
  let shouldPlay := Scrape.shouldPlayVideo (view video) in
  if negb shouldPlay then
    if (studyOverlays video =? 0)%nat then       (* no .study-overlay yet *)
      {| tagName := tagName video; title := title video; view := view video;
         display := display video;
         opacity := "0.7";
         position := "relative";
         studyOverlays := 1;
         anchors := map disabledAnchor (anchors video) |}
    else video
  else
    {| tagName := tagName video; title := title video; view := view video;
       display := display video;
       opacity := "1";
       position := position video;
       studyOverlays := Nat.pred (studyOverlays video);
       anchors := map enabledAnchor (anchors video) |}.

Definition videoSelectors : list string :=
  ["ytd-rich-item-renderer";
   "ytd-grid-video-renderer";
   "ytd-video-renderer";
   "ytd-compact-video-renderer"].

(** One round of [videoSelectors.forEach(selector => ...)]: the elements
    with that tag are visited. *)
Definition visitSelector (ns : list Node) (selector : string) : list Node :=
  map (fun n => if String.eqb (tagName n) selector then visitVideo n else n) ns.

(** [blockNonStudyVideos()], up to the point where the watch-page check
    is handed to [setTimeout]. *)
Definition blockNonStudyVideos (youtubeStudyMode : bool) (window : Page)
           (d : Document) : Document :=
  if negb youtubeStudyMode || negb (isYouTube window) then d
  else
    let hidden := map hideShort (nodes d) in
    withNodes d (fold_left visitSelector videoSelectors hidden).

(** Whether [blockNonStudyVideos] schedules the watch-page check. *)
Definition schedulesWatchCheck (youtubeStudyMode : bool) (window : Page)
           (d : Document) : bool :=
  youtubeStudyMode && isYouTube window && includes (pathname d) "/watch".

(** [shouldPlayWatchPage] of the watch-page check. *)
Definition shouldPlayWatchPage (title description : string) : bool :=
  let hasBlock := hasBlockKeyword title || hasBlockKeyword description in
  let hasStudy := hasStudyKeyword title || hasStudyKeyword description in
  negb hasBlock && hasStudy.

(** The watch-page check, run by the timer. *)
Definition watchPageCheck (d : Document) : Document :=
  let title := match watchTitle d with Some t => trim t | None => EmptyString end in
  let description :=
    match watchDescription d with Some t => trim t | None => EmptyString end in
  match player d with
  | None => d
  | Some p =>
      if negb (shouldPlayWatchPage title description) then
        withPlayer d (Some
          (if (watchOverlays p =? 0)%nat then
             {| player_opacity := "0.3"; player_position := "relative";
                watchOverlays := 1 |}
           else
             {| player_opacity := "0.3"; player_position := player_position p;
                watchOverlays := watchOverlays p |}))
      else
        withPlayer d (Some
          {| player_opacity := "1"; player_position := player_position p;
             watchOverlays := Nat.pred (watchOverlays p) |})
  end.

(** The three passes of [cleanupYouTubeBlocks] over an element: every
    overlay goes, a reel renderer is shown again, and a
    [ytd-rich-item-renderer] or [ytd-video-renderer] gets its style and
    its anchors back. *)
Definition cleanupNode (n : Node) : Node :=
  let restored :=
    String.eqb (tagName n) "ytd-rich-item-renderer" ||
    String.eqb (tagName n) "ytd-video-renderer" in
  {| tagName := tagName n; title := title n; view := view n;
     display := if isReelRenderer n then EmptyString else display n;
     opacity := if restored then "1" else opacity n;
     position := if restored then EmptyString else position n;
     studyOverlays := 0;
     anchors := if restored then map enabledAnchor (anchors n) else anchors n |}.

(** [cleanupYouTubeBlocks()]. *)
Definition cleanupYouTubeBlocks (d : Document) : Document :=
  {| nodes := map cleanupNode (nodes d);
     player :=
       option_map (fun p => {| player_opacity := "1";
                               player_position := EmptyString;
                               watchOverlays := 0 |}) (player d);
     pathname := pathname d;
     watchTitle := watchTitle d;
     watchDescription := watchDescription d |}.

(** [initYouTubeStudyMode()], as far as the document goes (the observer
    and the two delayed re-runs of [blockNonStudyVideos] are left out). *)
Definition initYouTubeStudyMode (youtubeStudyMode : bool) (window : Page)
           (d : Document) : Document :=
  if negb (isYouTube window) then d
  else if youtubeStudyMode then blockNonStudyVideos youtubeStudyMode window d
  else cleanupYouTubeBlocks d.

End Study.

(* ================================================================= *)
(** ** content.js: scanning the forms of the page *)

Module FormScan.
Import JS Content.

(** An element below a form together with the inline style and the
    attribute that the scanner writes. *)
Record Field := {
  element : Element;
  border : string;
  boxShadow : string;
  securityWarning : bool        (* data-security-warning="true" *)
}.

(** A form of the page: what [analyzeForm] reads, the
    [data-security-warning-added] attribute and the number of submit
    listeners the scanner has attached. *)
Record FormNode := {
  form_action : string;
  fields : list Field;
  warningAdded : bool;
  submitListeners : nat
}.

Definition formOf (f : FormNode) : Form :=
  {| action := form_action f; descendants := map element (fields f) |}.

Definition Element_eqb (a b : Element) : bool :=
  String.eqb (localName a) (localName b) && String.eqb (type a) (type b) &&
  String.eqb (name a) (name b) && String.eqb (id a) (id b).

(** The field is one of the elements of [inputs]. *)
Definition isOneOf (inputs : list Element) (f : Field) : bool :=
  existsb (Element_eqb (element f)) inputs.

Definition highlighted (f : Field) : Field :=
  {| element := element f;
     border := "2px solid #f44336";
     boxShadow := "0 0 5px rgba(244, 67, 54, 0.5)";
     securityWarning := true |}.

(** [highlightSuspiciousInputs(inputs)], seen from the fields of the form
    the inputs belong to. *)
Definition highlightSuspiciousInputs (inputs : list Element) (fs : list Field)
  : list Field :=
  map (fun f => if isOneOf inputs f then highlighted f else f) fs.

Definition unhighlighted (f : Field) : Field :=
  {| element := element f;
     border := EmptyString;
     boxShadow := EmptyString;
     securityWarning := false |}.

(** [removeInputHighlights()], on the fields of one form: the elements
    matched by [[data-security-warning="true"]] are reset. *)
Definition removeInputHighlights (fs : list Field) : list Field :=
  map (fun f => if securityWarning f then unhighlighted f else f) fs.

(** The body of [forms.forEach(form => ...)]. *)
Definition visitForm (window : Page) (form : FormNode) : FormNode :=
  let analysis := analyzeForm window (formOf form) in
  if isSuspicious analysis then
    {| form_action := form_action form;
       fields := highlightSuspiciousInputs (sensitiveInputs analysis) (fields form);
       warningAdded := true;
       submitListeners :=
         if warningAdded form then submitListeners form
         else S (submitListeners form) |}
  else form.

(** [scanFormsOnPage()]. *)
Definition scanFormsOnPage (formAnalysisMode : bool) (window : Page)
           (forms : list FormNode) : list FormNode :=
  if negb formAnalysisMode then
    map (fun form =>
           {| form_action := form_action form;
              fields := removeInputHighlights (fields form);
              warningAdded := warningAdded form;
              submitListeners := submitListeners form |}) forms
  else map (visitForm window) forms.

End FormScan.

(* ================================================================= *)
(** ** content.js: initialisation and the storage listener *)

Module ContentScript.
Import JS Content.

(** [securityState], without the observer handle. *)
Record SecurityState := {
  youtubeStudyMode : bool;
  formAnalysisMode : bool;
  urlShortenerMode : bool
}.

(** The flags and the parts of the page the script writes to; [banners]
    counts the elements with the id [shortener-warning-banner]. *)
Record State := {
  securityState : SecurityState;
  document : Study.Document;
  forms : list FormScan.FormNode;
  banners : nat
}.

(** The three keys of a [chrome.storage] result or change set; [None] is
    a key that is not there. *)
Record Keys := {
  key_youtubeStudyMode : option bool;
  key_formAnalysisMode : option bool;
  key_urlShortenerMode : option bool
}.

(** [x || false]. *)
Definition orFalse (x : option bool) : bool :=
  match x with Some b => b | None => false end.

(** [showShortenerWarning()]: nothing when a banner is there already. *)
Definition showShortenerWarning (banners : nat) : nat :=
  if (banners =? 0)%nat then 1 else banners.

(** The click handler of the Dismiss button of a banner. *)
Definition dismissBanner (banners : nat) : nat := Nat.pred banners.

(** The callback of [chrome.storage.sync.get] in [init()]. *)
Definition init (window : Page) (result : Keys) (s : State) : State :=
  let flags :=
    {| youtubeStudyMode := orFalse (key_youtubeStudyMode result);
       formAnalysisMode := orFalse (key_formAnalysisMode result);
       urlShortenerMode := orFalse (key_urlShortenerMode result) |} in
  let document1 :=
    if Study.isYouTube window
    then Study.initYouTubeStudyMode (youtubeStudyMode flags) window (document s)
    else document s in
  let forms1 :=
    if formAnalysisMode flags
    then FormScan.scanFormsOnPage (formAnalysisMode flags) window (forms s)
    else forms s in
  let banners1 :=
    if urlShortenerMode flags && isShortener (detectUrlShortener window)
    then showShortenerWarning (banners s)
    else banners s in
  {| securityState := flags; document := document1;
     forms := forms1; banners := banners1 |}.

(** The three blocks of the [chrome.storage.onChanged] listener, in the
    order of the source; a changed key carries its [newValue]. *)
Definition onYoutubeStudyModeChanged (window : Page) (newValue : bool) (s : State)
  : State :=
  let flags :=
    {| youtubeStudyMode := newValue;
       formAnalysisMode := formAnalysisMode (securityState s);
       urlShortenerMode := urlShortenerMode (securityState s) |} in
  {| securityState := flags;
     document :=
       if Study.isYouTube window
       then Study.initYouTubeStudyMode newValue window (document s)
       else document s;
     forms := forms s; banners := banners s |}.

Definition onFormAnalysisModeChanged (window : Page) (newValue : bool) (s : State)
  : State :=
  let flags :=
    {| youtubeStudyMode := youtubeStudyMode (securityState s);
       formAnalysisMode := newValue;
       urlShortenerMode := urlShortenerMode (securityState s) |} in
  {| securityState := flags; document := document s;
     forms := FormScan.scanFormsOnPage newValue window (forms s);
     banners := banners s |}.

Definition onUrlShortenerModeChanged (window : Page) (newValue : bool) (s : State)
  : State :=
  let flags :=
    {| youtubeStudyMode := youtubeStudyMode (securityState s);
       formAnalysisMode := formAnalysisMode (securityState s);
       urlShortenerMode := newValue |} in
  {| securityState := flags; document := document s; forms := forms s;
     banners :=
       if newValue then
         if isShortener (detectUrlShortener window)
         then showShortenerWarning (banners s) else banners s
       else Nat.pred (banners s) |}.

Definition whenChanged (key : option bool) (handler : bool -> State -> State)
           (s : State) : State :=
  match key with
  | Some newValue => handler newValue s
  | None => s
  end.

(** The [chrome.storage.onChanged] listener. *)
Definition onChanged (window : Page) (changes : Keys) (s : State) : State :=
  let s1 := whenChanged (key_youtubeStudyMode changes) (onYoutubeStudyModeChanged window) s in
  let s2 := whenChanged (key_formAnalysisMode changes) (onFormAnalysisModeChanged window) s1 in
  whenChanged (key_urlShortenerMode changes) (onUrlShortenerModeChanged window) s2.

(** What happens to a loaded page: the settings change or the user
    dismisses the banner. *)
Inductive Event :=
| Changed (changes : Keys)
| Dismiss.

Definition step (window : Page) (s : State) (e : Event) : State :=
  match e with
  | Changed changes => onChanged window changes s
  | Dismiss =>
      {| securityState := securityState s; document := document s;
         forms := forms s; banners := dismissBanner (banners s) |}
  end.

(** The page after [init] and a sequence of events. *)
Definition run (window : Page) (result : Keys) (events : list Event) (s : State)
  : State :=
  fold_left (step window) events (init window result s).

End ContentScript.

(* ================================================================= *)
(** ** popup.js: showing a reputation reply *)

Module Popup.
Import JS Background.

(** [c] is one of a..z. *)
Definition isLower (c : ascii) : bool :=
  (97 <=? nat_of_ascii c)%nat && (nat_of_ascii c <=? 122)%nat.

(** [toUpperCase] on one ASCII code unit: a..z go to A..Z.  Outside
    ASCII the method is not one code unit to one and is not modelled;
    the threat types of the service are ASCII names. *)
Definition toUpperChar (c : ascii) : ascii :=
  if isLower c then ascii_of_nat (nat_of_ascii c - 32) else c.

(** [s.split('_')]. *)
Fixpoint split_underscore (s : string) : list string :=
  match s with
  | EmptyString => [EmptyString]
  | String c s' =>
      if Ascii.eqb c "_" then EmptyString :: split_underscore s'
      else match split_underscore s' with
           | word :: words => String c word :: words
           | [] => [String c EmptyString]
           end
  end.

(** [word.charAt(0).toUpperCase() + word.slice(1).toLowerCase()]. *)
Definition capitalize (word : string) : string :=
  match word with
  | EmptyString => EmptyString
  | String c rest => String (toUpperChar c) (toLowerCase rest)
  end.

(** [formatThreatType(threatType)]. *)
Definition formatThreatType (threatType : string) : string :=
  if String.eqb threatType "None" then "No threats detected"
  else
    let formatted :=
      String.concat " " (map capitalize (split_underscore threatType)) in
    formatted.

(** What [displayResults] writes into the popup.  The three numbers are
    the ones interpolated into the bar width, the bar text and the score
    text. *)
Record View := {
  urlDisplay : string;
  statusBadge_text : string;
  statusBadge_class : list string;
  threatDisplay_text : string;
  threatDisplay_class : list string;
  riskBar_widthPercent : Z;
  riskBar_class : list string;
  riskBarText_percent : Z;
  riskScoreText_score : Z;
  finalLabel_text : string;
  finalLabel_class : list string
}.

(** [displayResults(data)]. *)
Definition displayResults (data : ReputationData) : View :=
  let riskScore := data_riskScore data in
  {| urlDisplay := data_url data;
     statusBadge_text := data_status data;
     statusBadge_class :=
       "status-badge" ::
       (if String.eqb (data_status data) "Safe" then ["status-safe"]
        else if String.eqb (data_status data) "Malicious" then ["status-malicious"]
        else ["status-error"]);
     threatDisplay_text := formatThreatType (data_threatType data);
     threatDisplay_class :=
       "threat-display" ::
       (if String.eqb (data_threatType data) "None" then ["threat-none"]
        else ["threat-detected"]);
     riskBar_widthPercent := Z.max riskScore 5;
     riskBar_class :=
       "risk-bar" ::
       (if (0 <=? riskScore)%Z && (riskScore <=? 30)%Z then ["risk-safe"]
        else if (31 <=? riskScore)%Z && (riskScore <=? 60)%Z then ["risk-suspicious"]
        else if (61 <=? riskScore)%Z && (riskScore <=? 100)%Z then ["risk-high"]
        else []);
     riskBarText_percent := riskScore;
     riskScoreText_score := riskScore;
     finalLabel_text := data_riskLabel data;
     finalLabel_class :=
       "final-label" ::
       (if String.eqb (data_riskLabel data) "Safe" then ["label-safe"]
        else if String.eqb (data_riskLabel data) "Suspicious" then ["label-suspicious"]
        else if String.eqb (data_riskLabel data) "High Risk" then ["label-high-risk"]
        else []) |}.

(** The panel the popup ends on. *)
Inductive Panel :=
| Results (view : View)                 (* showResults() *)
| ErrorPanel (message : string).        (* showError(message) *)

(** The callback that [checkCustomUrl] passes to
    [chrome.runtime.sendMessage], for a delivered message
    ([chrome.runtime.lastError] unset); [None] is a missing response. *)
Definition onCustomUrlReply (response : option Response) : Panel :=
  match response with
  | None =>
      ErrorPanel "No response from background service worker. Try reloading the extension."
  | Some (Success data) => Results (displayResults data)
  | Some (Failure error) => ErrorPanel ("Error checking reputation: " ++ error)
  end.

(** What the click on the custom-URL button does with the text of the
    input box. *)
Inductive CustomUrlAction :=
| AskForUrl (message : string)          (* showError('Please enter a URL') *)
| CheckUrl (urlToCheck : string).       (* checkCustomUrl(urlToCheck) *)

(** The click listener of [checkCustomUrlBtn]. *)
Definition onCheckCustomUrlClick (urlInput_value : string) : CustomUrlAction :=
  let url := trim urlInput_value in
  if String.eqb url EmptyString then AskForUrl "Please enter a URL"
  else
    let urlToCheck :=
      if startsWith url "http://" || startsWith url "https://" then url
      else "https://" ++ url in
    CheckUrl urlToCheck.

End Popup.

(* ================================================================= *)
(** ** Vocabulary for the properties of the remaining code *)

Module Props.
Import JS Content.

(** Every code unit of the text is an ASCII character (below 128): the
    texts on which the case methods map one code unit to one. *)
Fixpoint isAscii (s : string) : bool :=
  match s with
  | EmptyString => true
  | String c s' => (nat_of_ascii c <? 128)%nat && isAscii s'
  end.

(** Each underscore replaced by a space. *)
Fixpoint underscoresToSpaces (s : string) : string :=
  match s with
  | EmptyString => EmptyString
  | String c s' =>
      String (if Ascii.eqb c "_" then " "%char else c) (underscoresToSpaces s')
  end.

(** The study keywords inside which a block keyword occurs. *)
Definition shadowedStudyKeywords : list string :=
  filter (fun k => existsb (fun b => includes (toLowerCase k) (toLowerCase b))
                           BLOCK_KEYWORDS)
         STUDY_KEYWORDS.

(** A metadata line that the description scraper passes over: no visible
    text, at most 50 code units once trimmed, or a bullet or the word
    [views] in it. *)
Definition ignoredLine (textContent : string) : bool :=
  negb (Scrape.hasVisibleText textContent) ||
  (String.length (trim textContent) <=? 50)%nat ||
  includes (trim textContent) "•" ||
  includes (trim textContent) "views".

(** The text does not begin with white space. *)
Definition noLeadingSpace (s : string) : bool :=
  match s with
  | EmptyString => true
  | String c _ => negb (isWhiteSpace c)
  end.

(** The renderer with its metadata lines replaced. *)
Definition withMetadataLines (v : Scrape.VideoDom) (lines : list string)
  : Scrape.VideoDom :=
  {| Scrape.querySelector_textContent := Scrape.querySelector_textContent v;
     Scrape.aria_label := Scrape.aria_label v;
     Scrape.metadataLines := lines |}.

(** Nothing the scrapers look at carries visible text. *)
Definition nothingVisible (v : Scrape.VideoDom) : Prop :=
  (forall selector textContent,
      Scrape.querySelector_textContent v selector = Some textContent ->
      blank textContent = true) /\
  (forall label, Scrape.aria_label v = Some label -> blank label = true) /\
  (forall line, In line (Scrape.metadataLines v) -> ignoredLine line = true).

(** The element is one that [blockNonStudyVideos] visits as a video. *)
Definition isVideoRenderer (n : Study.Node) : bool :=
  existsb (String.eqb (Study.tagName n)) Study.videoSelectors.

(** What one run of [blockNonStudyVideos] does to one element. *)
Definition blockNode (n : Study.Node) : Study.Node :=
  let h := Study.hideShort n in
  if isVideoRenderer h then Study.visitVideo h else h.

(** A field as the page delivers it: no inline border or shadow, no
    warning attribute. *)
Definition freshField (f : FormScan.Field) : Prop :=
  FormScan.border f = EmptyString /\ FormScan.boxShadow f = EmptyString /\
  FormScan.securityWarning f = false.

(** A form the scanner has not marked. *)
Definition freshForm (f : FormScan.FormNode) : Prop :=
  FormScan.warningAdded f = false /\ FormScan.submitListeners f = 0%nat /\
  Forall freshField (FormScan.fields f).

(** The form is suspicious for [analyzeForm]. *)
Definition suspicious (window : Page) (f : FormScan.FormNode) : bool :=
  isSuspicious (analyzeForm window (FormScan.formOf f)).

(** The field is one of the sensitive [input] elements. *)
Definition sensitiveField (f : FormScan.Field) : bool :=
  String.eqb (localName (FormScan.element f)) "input" &&
  isSensitiveInput (FormScan.element f).

(** The video the watch-page check classifies. *)
Definition watchedVideo (d : Study.Document) : VideoElement :=
  {| getVideoTitle :=
       match Study.watchTitle d with Some t => trim t | None => EmptyString end;
     getVideoDescription :=
       match Study.watchDescription d with Some t => trim t | None => EmptyString end |}.

End Props.

(* ================================================================= *)
(** ** Concrete pages for the remaining code *)

Module Sample2.
Import JS Content.

Definition youtube : Page := Sample.pageAt "www.youtube.com".

(** A renderer whose [#video-title] reads [text]. *)
Definition titled (text : string) : Scrape.VideoDom :=
  {| Scrape.querySelector_textContent :=
       fun selector => if String.eqb selector "#video-title" then Some text else None;
     Scrape.aria_label := None;
     Scrape.metadataLines := ["12K views"] |}.

Definition freshNode (tag text : string) : Study.Node :=
  {| Study.tagName := tag; Study.title := None; Study.view := titled text;
     Study.display := EmptyString; Study.opacity := EmptyString;
     Study.position := EmptyString; Study.studyOverlays := 0;
     Study.anchors := [ {| Study.pointerEvents := EmptyString;
                           Study.cursor := EmptyString |} ] |}.

(** A results page with a blocked grid renderer, a study video and a
    shelf titled Shorts. *)
Definition results : Study.Document :=
  {| Study.nodes :=
       [ freshNode "ytd-grid-video-renderer" "Funny prank";
         freshNode "ytd-video-renderer" "Linear algebra";
         {| Study.tagName := "div"; Study.title := Some "Shorts";
            Study.view := titled EmptyString;
            Study.display := EmptyString; Study.opacity := EmptyString;
            Study.position := EmptyString; Study.studyOverlays := 0;
            Study.anchors := [] |} ];
     Study.player := Some {| Study.player_opacity := EmptyString;
                             Study.player_position := EmptyString;
                             Study.watchOverlays := 0 |};
     Study.pathname := "/watch";
     Study.watchTitle := None;
     Study.watchDescription := None |}.

Definition freshFieldOf (e : Element) : FormScan.Field :=
  {| FormScan.element := e; FormScan.border := EmptyString;
     FormScan.boxShadow := EmptyString; FormScan.securityWarning := false |}.

(** A login form posting to another site, as the page delivers it. *)
Definition loginForm : FormScan.FormNode :=
  {| FormScan.form_action := "https://evil.com/submit";
     FormScan.fields :=
       [ freshFieldOf Sample.passwordField;
         freshFieldOf {| localName := "input"; type := "text";
                         name := "nickname"; id := EmptyString |} ];
     FormScan.warningAdded := false;
     FormScan.submitListeners := 0 |}.

Definition noKeys : ContentScript.Keys :=
  {| ContentScript.key_youtubeStudyMode := None;
     ContentScript.key_formAnalysisMode := None;
     ContentScript.key_urlShortenerMode := None |}.

Definition shortenerKey (b : bool) : ContentScript.Keys :=
  {| ContentScript.key_youtubeStudyMode := None;
     ContentScript.key_formAnalysisMode := None;
     ContentScript.key_urlShortenerMode := Some b |}.

Definition formKey (b : bool) : ContentScript.Keys :=
  {| ContentScript.key_youtubeStudyMode := None;
     ContentScript.key_formAnalysisMode := Some b;
     ContentScript.key_urlShortenerMode := None |}.

(** The state of a freshly loaded page. *)
Definition loaded (forms : list FormScan.FormNode) : ContentScript.State :=
  {| ContentScript.securityState :=
       {| ContentScript.youtubeStudyMode := false;
          ContentScript.formAnalysisMode := false;
          ContentScript.urlShortenerMode := false |};
     ContentScript.document := results;
     ContentScript.forms := forms;
     ContentScript.banners := 0 |}.

End Sample2.

(* ================================================================= *)
(** ** Facts about the string methods *)

Section StringFacts.
Import JS.

Lemma startsWith_app (p t : string) : startsWith (p ++ t) p = true.
Proof.
  induction p as [|b p IH]; simpl; [reflexivity|].
  now rewrite Ascii.eqb_refl, IH.
Qed.

Lemma startsWith_split (p s : string) :
  startsWith s p = true -> s = p ++ drop (String.length p) s.
Proof.
  revert s; induction p as [|b p IH]; intros s H; simpl in *.
  - reflexivity.
  - destruct s as [|a s]; [discriminate|].
    apply andb_true_iff in H as [Hab Hs].
    apply Ascii.eqb_eq in Hab; subst a.
    now rewrite <- (IH s Hs).
Qed.

Lemma startsWith_iff (s p : string) :
  startsWith s p = true <-> exists t, s = p ++ t.
Proof.
  split.
  - intros H. exists (drop (String.length p) s). now apply startsWith_split.
  - intros [t ->]. apply startsWith_app.
Qed.

Lemma includes_iff (s k : string) :
  includes s k = true <-> exists pre post, s = pre ++ k ++ post.
Proof.
  split.
  - induction s as [|a s IH]; simpl; intros H.
    + rewrite orb_false_r in H. apply startsWith_iff in H as [t Ht].
      exists EmptyString, t. exact Ht.
    + apply orb_true_iff in H as [H|H].
      * apply startsWith_iff in H as [t Ht]. exists EmptyString, t. exact Ht.
      * destruct (IH H) as (pre & post & ->).
        exists (String a pre), post. reflexivity.
  - intros (pre & post & ->).
    induction pre as [|a pre IH].
    + simpl (EmptyString ++ _).
      destruct (k ++ post) eqn:E; simpl; rewrite <- E, startsWith_app; reflexivity.
    + simpl. rewrite IH. apply orb_true_r.
Qed.

Lemma toLowerCase_app (a b : string) :
  toLowerCase (a ++ b) = toLowerCase a ++ toLowerCase b.
Proof. induction a as [|x a IH]; simpl; [reflexivity | now rewrite IH]. Qed.

Lemma isWhiteSpace_toLowerChar (c : ascii) :
  isWhiteSpace (toLowerChar c) = isWhiteSpace c.
Proof.
  destruct c as [[] [] [] [] [] [] [] []]; reflexivity.
Qed.

Lemma blank_toLowerCase (s : string) : blank (toLowerCase s) = blank s.
Proof.
  induction s as [|c s IH]; simpl; [reflexivity|].
  now rewrite isWhiteSpace_toLowerChar, IH.
Qed.

Lemma blank_app (a b : string) : blank (a ++ b) = blank a && blank b.
Proof.
  induction a as [|x a IH]; simpl; [reflexivity|].
  now rewrite IH, andb_assoc.
Qed.

Lemma blank_trimStart (s : string) : blank (trimStart s) = blank s.
Proof.
  induction s as [|c s IH]; simpl; [reflexivity|].
  destruct (isWhiteSpace c) eqn:E; simpl; [exact IH | now rewrite E].
Qed.

Lemma trimEnd_empty_iff (s : string) :
  trimEnd s = EmptyString <-> blank s = true.
Proof.
  induction s as [|c s IH]; simpl.
  - tauto.
  - destruct (trimEnd s) eqn:E.
    + destruct (isWhiteSpace c); simpl.
      * tauto.
      * split; discriminate.
    + split; [discriminate|].
      intros H. apply andb_true_iff in H as [_ H].
      apply IH in H. discriminate.
Qed.

(** [text.trim() === ''] says that the text is empty or white space only. *)
Lemma trim_empty_iff (s : string) :
  trim s = EmptyString <-> blank s = true.
Proof.
  unfold trim. rewrite trimEnd_empty_iff, blank_trimStart. tauto.
Qed.

Lemma replace_at_prefix (s pat rep : string) :
  startsWith s pat = true -> replace s pat rep = rep ++ drop (String.length pat) s.
Proof.
  intros H. destruct s; simpl; rewrite H; reflexivity.
Qed.

Lemma replace_absent (s pat rep : string) :
  includes s pat = false -> replace s pat rep = s.
Proof.
  induction s as [|a s IH]; simpl; intros H;
    apply orb_false_iff in H as [H1 H2]; rewrite H1; [reflexivity|].
  now rewrite IH.
Qed.

End StringFacts.

(* ================================================================= *)
(** ** Reputation evaluator *)

Section ReputationEvaluator.
Import Background Spec.

Local Open Scope Z_scope.

Ltac label_cases score :=
  unfold getRiskLabel;
  destruct (Z.leb_spec 0 score); destruct (Z.leb_spec score 30);
  destruct (Z.leb_spec 31 score); destruct (Z.leb_spec score 60);
  destruct (Z.leb_spec 61 score); destruct (Z.leb_spec score 100);
  cbn [andb]; try lia.

(** C5.  The score-to-label mapping partitions the integers: a score gets
    the label Safe exactly when it lies in [0,30], Suspicious exactly in
    [31,60], High Risk exactly in [61,100], and Unknown exactly when it is
    below 0 or above 100. *)
Theorem getRiskLabel_partition (score : Z) :
  (getRiskLabel score = "Safe" <-> 0 <= score <= 30) /\
  (getRiskLabel score = "Suspicious" <-> 31 <= score <= 60) /\
  (getRiskLabel score = "High Risk" <-> 61 <= score <= 100) /\
  (getRiskLabel score = "Unknown" <-> score < 0 \/ 100 < score).
Proof.
  label_cases score;
    repeat split; intros; try discriminate; try reflexivity; lia.
Qed.

(** The boundary scores named by the specification. *)
Lemma getRiskLabel_partition_witness :
  getRiskLabel 0 = "Safe" /\ getRiskLabel 30 = "Safe" /\
  getRiskLabel 31 = "Suspicious" /\ getRiskLabel 60 = "Suspicious" /\
  getRiskLabel 61 = "High Risk" /\ getRiskLabel 100 = "High Risk" /\
  getRiskLabel (-1) = "Unknown" /\ getRiskLabel 101 = "Unknown".
Proof.
  refine (conj _ (conj _ (conj _ (conj _ (conj _ (conj _ (conj _ _))))))).
  - apply (proj1 (getRiskLabel_partition 0)); lia.
  - apply (proj1 (getRiskLabel_partition 30)); lia.
  - apply (proj1 (proj2 (getRiskLabel_partition 31))); lia.
  - apply (proj1 (proj2 (getRiskLabel_partition 60))); lia.
  - apply (proj1 (proj2 (proj2 (getRiskLabel_partition 61)))); lia.
  - apply (proj1 (proj2 (proj2 (getRiskLabel_partition 100)))); lia.
  - apply (proj2 (proj2 (proj2 (getRiskLabel_partition (-1))))); lia.
  - apply (proj2 (proj2 (proj2 (getRiskLabel_partition 101)))); lia.
Defined.

(** The result of [checkUrlReputation] on a parsed response depends on
    the response through [matched] alone, the reported threat type
    apart. *)
Lemma checkUrlReputation_fulfilled (u : string) (data : SafeBrowsingData) :
  riskScore (checkUrlReputation u (Fulfilled data)) = (if matched data then 40 else 0) /\
  status (checkUrlReputation u (Fulfilled data)) = (if matched data then "Malicious" else "Safe").
Proof.
  unfold matched. destruct data as [[[|m ms]|]]; split; reflexivity.
Qed.

(** C6.  A verdict with a match is scored 40 and labelled Suspicious,
    whatever the kind of the threat; a verdict without a match is scored
    0 and labelled Safe. *)
Theorem assessRisk_of_verdict (u : string) (data : SafeBrowsingData) :
  exists d,
    onCheckReputation u (Fulfilled data) = Success d /\
    (matched data = true ->
       data_riskScore d = 40 /\ data_riskLabel d = "Suspicious") /\
    (matched data = false ->
       data_riskScore d = 0 /\ data_riskLabel d = "Safe").
Proof.
  unfold onCheckReputation. eexists. split; [reflexivity|]. cbn [data_riskScore data_riskLabel].
  destruct (checkUrlReputation_fulfilled u data) as [-> _].
  destruct (matched data); split; intros E; try discriminate; split; reflexivity.
Qed.

Lemma assessRisk_of_verdict_witness :
  exists d,
    onCheckReputation "https://example.com/"
      (Fulfilled {| matches := Some [ {| match_threatType := "MALWARE" |} ] |}) = Success d /\
    data_riskScore d = 40 /\ data_riskLabel d = "Suspicious".
Proof.
  destruct (assessRisk_of_verdict "https://example.com/"
              {| matches := Some [ {| match_threatType := "MALWARE" |} ] |})
    as (d & Hd & Hyes & _).
  exists d. split; [exact Hd | apply Hyes; reflexivity].
Defined.

(** C1, as the code has it.  When the lookup fails, the reply carries the
    status Error, the score 0 and the failure message (a non-empty one),
    but its risk label is computed from the score 0 and so is Safe, not
    Unknown. *)
Theorem failed_lookup_reply (u message : string) :
  exists d,
    onCheckReputation u (Rejected message) = Success d /\
    data_status d = "Error" /\
    data_riskScore d = 0 /\
    data_error d = (if String.eqb message EmptyString then None else Some message) /\
    data_riskLabel d = "Safe" /\
    data_riskLabel d <> "Unknown".
Proof.
  eexists. split; [reflexivity|]. cbn. repeat split. discriminate.
Qed.

(** The failing run: the request for [https://example.com/] cannot reach
    the service. *)
Example failed_lookup_example :
  onCheckReputation "https://example.com/" (Rejected "Failed to fetch") =
  Success {| data_url := "https://example.com/";
             data_status := "Error";
             data_threatType := "Unknown";
             data_riskScore := 0;
             data_riskLabel := "Safe";
             data_error := Some "Failed to fetch" |}.
Proof. reflexivity. Qed.

End ReputationEvaluator.

(* ================================================================= *)
(** ** Lexical classifier (study mode) *)

Section LexicalClassifier.
Import JS Content Spec.

(** A text in which a visible keyword occurs is not blank. *)
Lemma containsCI_not_blank (text keyword : string) :
  blank (toLowerCase keyword) = false ->
  containsCI text keyword ->
  blank text = false.
Proof.
  intros Hk (pre & post & E).
  rewrite <- blank_toLowerCase, E, !blank_app, Hk.
  now rewrite andb_false_r.
Qed.

Lemma blank_guard (text : string) :
  String.eqb text EmptyString || String.eqb (trim text) EmptyString = blank text.
Proof.
  destruct (blank text) eqn:B.
  - apply trim_empty_iff in B. rewrite B. apply orb_true_r.
  - apply orb_false_iff; split; apply String.eqb_neq; intros E.
    + subst text. discriminate.
    + apply trim_empty_iff in E. congruence.
Qed.

(** The scan of [hasStudyKeyword] / [hasBlockKeyword] decides
    case-insensitive substring containment of some keyword of the set. *)
Lemma hasKeywordOf_iff (KEYWORDS : list string) (text : string) :
  visibleKeywords KEYWORDS = true ->
  hasKeywordOf KEYWORDS text = true <-> matchesSet KEYWORDS text.
Proof.
  intros V. unfold hasKeywordOf, matchesSet. rewrite blank_guard. split.
  - destruct (blank text); [discriminate|].
    intros H. apply existsb_exists in H as (k & Hin & Hk).
    exists k. split; [exact Hin|]. now apply includes_iff.
  - intros (k & Hin & Hk).
    assert (Bk : blank (toLowerCase k) = false).
    { unfold visibleKeywords in V. rewrite forallb_forall in V.
      apply negb_true_iff. now apply V. }
    rewrite (containsCI_not_blank text k Bk Hk).
    apply existsb_exists. exists k. split; [exact Hin|].
    now apply includes_iff.
Qed.

Lemma BLOCK_KEYWORDS_visible : visibleKeywords BLOCK_KEYWORDS = true.
Proof. vm_compute. reflexivity. Qed.

Lemma STUDY_KEYWORDS_visible : visibleKeywords STUDY_KEYWORDS = true.
Proof. vm_compute. reflexivity. Qed.

Lemma hasBlockKeyword_iff (text : string) :
  hasBlockKeyword text = true <-> matchesSet BLOCK_KEYWORDS text.
Proof. apply hasKeywordOf_iff, BLOCK_KEYWORDS_visible. Qed.

Lemma hasStudyKeyword_iff (text : string) :
  hasStudyKeyword text = true <-> matchesSet STUDY_KEYWORDS text.
Proof. apply hasKeywordOf_iff, STUDY_KEYWORDS_visible. Qed.

Lemma hasKeywordOf_blank (KEYWORDS : list string) (text : string) :
  trim text = EmptyString -> hasKeywordOf KEYWORDS text = false.
Proof.
  intros E. unfold hasKeywordOf. rewrite E. simpl. now rewrite orb_true_r.
Qed.

(** C3.  A video whose title or description contains a BLOCK keyword as
    a substring, letter case ignored, is blocked ([shouldPlayVideo] is
    [false]); no assumption is made on study keywords, which may be
    present as well. *)
Theorem block_keyword_always_blocks (v : VideoElement) :
  matchesSet BLOCK_KEYWORDS (getVideoTitle v) \/
  matchesSet BLOCK_KEYWORDS (getVideoDescription v) ->
  shouldPlayVideo v = false.
Proof.
  intros H. unfold shouldPlayVideo.
  assert (B : hasBlockKeyword (getVideoTitle v) || hasBlockKeyword (getVideoDescription v) = true).
  { apply orb_true_iff. destruct H as [H|H]; [left|right]; now apply hasBlockKeyword_iff. }
  now rewrite B.
Qed.

(** A title with the study keywords [python] and [tutorial] and the block
    keyword [music] (written [MUSIC]). *)
Lemma block_keyword_always_blocks_witness :
  hasStudyKeyword "Python MUSIC tutorial" = true /\
  shouldPlayVideo {| getVideoTitle := "Python MUSIC tutorial";
                     getVideoDescription := EmptyString |} = false.
Proof.
  split; [reflexivity|].
  apply block_keyword_always_blocks. left.
  exists "music". split.
  - simpl. tauto.
  - exists "python ", " tutorial". reflexivity.
Defined.

(** C4.  A video for which neither keyword set matches the title or the
    description is blocked, and a video whose title and description are
    both empty or white space only is such a video. *)
Theorem no_keyword_match_blocks (v : VideoElement) :
  (noKeywordMatch v -> shouldPlayVideo v = false) /\
  (trim (getVideoTitle v) = EmptyString ->
   trim (getVideoDescription v) = EmptyString ->
   noKeywordMatch v /\ shouldPlayVideo v = false).
Proof.
  assert (A : noKeywordMatch v -> shouldPlayVideo v = false).
  { intros (Bt & Bd & St & Sd). unfold shouldPlayVideo.
    rewrite <- hasBlockKeyword_iff in Bt, Bd.
    rewrite <- hasStudyKeyword_iff in St, Sd.
    apply not_true_is_false in Bt, Bd, St, Sd.
    now rewrite Bt, Bd, St, Sd. }
  split; [exact A|].
  intros Et Ed.
  assert (N : noKeywordMatch v).
  { unfold noKeywordMatch.
    rewrite <- !hasBlockKeyword_iff, <- !hasStudyKeyword_iff.
    unfold hasBlockKeyword, hasStudyKeyword.
    rewrite !(hasKeywordOf_blank _ _ Et), !(hasKeywordOf_blank _ _ Ed).
    repeat split; discriminate. }
  split; [exact N | exact (A N)].
Qed.

(** A white-space-only item, and an item with visible text that no
    keyword matches. *)
Lemma no_keyword_match_blocks_witness :
  shouldPlayVideo {| getVideoTitle := "   "; getVideoDescription := EmptyString |} = false /\
  shouldPlayVideo {| getVideoTitle := "qwzx 42"; getVideoDescription := "zzz" |} = false.
Proof.
  split.
  - apply (proj2 (no_keyword_match_blocks
                    {| getVideoTitle := "   "; getVideoDescription := EmptyString |}));
      reflexivity.
  - apply (proj1 (no_keyword_match_blocks
                    {| getVideoTitle := "qwzx 42"; getVideoDescription := "zzz" |})).
    unfold noKeywordMatch.
    rewrite <- !hasBlockKeyword_iff, <- !hasStudyKeyword_iff.
    cbn [getVideoTitle getVideoDescription].
    repeat split; vm_compute; discriminate.
Defined.

End LexicalClassifier.

(* ================================================================= *)
(** ** Form risk analyser *)

Section FormRiskAnalyzer.
Import JS Content Spec Sample.

Variable window : Page.




(** The sensitive inputs are the [input] descendants that
    [isSensitiveInput] accepts. *)
Lemma sensitiveInputs_In (f : Form) (e : Element) :
  In e (sensitiveInputs (analyzeForm window f)) <->
  In e (descendants f) /\ localName e = "input" /\ isSensitiveInput e = true.
Proof.
  unfold analyzeForm, querySelectorAll_input. cbn [sensitiveInputs].
  rewrite !filter_In, String.eqb_eq. tauto.
Qed.




(** C10.  Every sensitive field that [analyzeForm] collects is an
    [input] element; a form none of whose descendants is an [input] has
    no sensitive field and is not suspicious, whatever its target. *)
Theorem sensitive_fields_are_inputs (f : Form) :
  (forall e, In e (sensitiveInputs (analyzeForm window f)) -> localName e = "input") /\
  ((forall e, In e (descendants f) -> localName e <> "input") ->
     sensitiveInputs (analyzeForm window f) = [] /\
     isSuspicious (analyzeForm window f) = false).
Proof.
  split.
  - intros e He. now apply sensitiveInputs_In in He.
  - intros N.
    assert (E : sensitiveInputs (analyzeForm window f) = []).
    { destruct (sensitiveInputs (analyzeForm window f)) as [|e r] eqn:S; [reflexivity|].
      assert (He : In e (sensitiveInputs (analyzeForm window f))) by (rewrite S; now left).
      apply sensitiveInputs_In in He as (Hin & Htag & _). now destruct (N e Hin). }
    split; [exact E|].
    change (isSuspicious (analyzeForm window f))
      with ((0 <? List.length (sensitiveInputs (analyzeForm window f)))%nat &&
            negb (String.eqb (getDomain window (action f)) (hostname window))).
    now rewrite E.
Qed.

End FormRiskAnalyzer.


(** A cross-domain form whose only field is a [textarea] named after a
    credit card. *)
Lemma sensitive_fields_are_inputs_witness :
  Content.formDomain (Content.analyzeForm (Sample.pageAt "bank.com")
     {| Content.action := "https://evil.com/submit";
        Content.descendants := [Sample.cardTextarea] |}) = "evil.com" /\
  Content.sensitiveInputs (Content.analyzeForm (Sample.pageAt "bank.com")
     {| Content.action := "https://evil.com/submit";
        Content.descendants := [Sample.cardTextarea] |}) = [] /\
  Content.isSuspicious (Content.analyzeForm (Sample.pageAt "bank.com")
     {| Content.action := "https://evil.com/submit";
        Content.descendants := [Sample.cardTextarea] |}) = false.
Proof.
  split; [reflexivity|].
  apply (proj2 (sensitive_fields_are_inputs (Sample.pageAt "bank.com")
     {| Content.action := "https://evil.com/submit";
        Content.descendants := [Sample.cardTextarea] |})).
  intros e [<-|[]]. vm_compute. discriminate.
Defined.

Example isSensitiveInput_card_name :
  Content.isSensitiveInput
    {| Content.localName := "input"; Content.type := "text";
       Content.name := "CreditCardNumber"; Content.id := EmptyString |} = true.
Proof. reflexivity. Qed.

Example isSensitiveInput_plain_text :
  Content.isSensitiveInput
    {| Content.localName := "input"; Content.type := "text";
       Content.name := "nickname"; Content.id := "nick" |} = false.
Proof. reflexivity. Qed.

(* ================================================================= *)
(** ** Shortener matcher *)

Section ShortenerMatcher.
Import JS Content Spec LinkScan Sample.

Variable window : Page.

Lemma someShortener_iff (d : string) :
  someShortener d = true <-> In d URL_SHORTENERS.
Proof.
  unfold someShortener. rewrite existsb_exists. split.
  - intros (s & Hin & E). apply String.eqb_eq in E. now subst.
  - intros Hin. exists d. split; [exact Hin | apply String.eqb_refl].
Qed.

(** What [detectUrlShortener] decides: the hostname, with its first
    [www.] removed wherever it stands, is equal to a member of the list. *)
Lemma detectUrlShortener_iff :
  isShortener (detectUrlShortener window) = true <->
  In (replace (hostname window) "www." EmptyString) URL_SHORTENERS.
Proof. apply someShortener_iff. Qed.

(** On a hostname in which [www.] occurs at the front or not at all, the
    code agrees with the specification's wording. *)
Lemma detectUrlShortener_leading_www :
  startsWith (hostname window) "www." = true \/
  includes (hostname window) "www." = false ->
  isShortener (detectUrlShortener window) = isShortener_spec (hostname window).
Proof.
  unfold detectUrlShortener, isShortener_spec, stripLeadingWww. cbn [isShortener].
  intros [H|H].
  - now rewrite (replace_at_prefix _ _ _ H), H.
  - rewrite (replace_absent _ _ _ H).
    destruct (startsWith (hostname window) "www.") eqn:S; [|reflexivity].
    apply startsWith_iff in S as [t St].
    assert (I : includes (hostname window) "www." = true).
    { apply includes_iff. exists EmptyString, t. exact St. }
    congruence.
Qed.

Lemma visitLink_step (acc : list ShortenedLink) (l : Link) :
  visitLink window acc l =
  (acc ++ (if isReported window l then [entryOf window l] else []))%list.
Proof.
  unfold visitLink, isReported, entryOf, scannedDomain.
  destruct (URL_hostname window (link_href l)) as [h|]; cbn [option_map].
  - destruct (someShortener _); [reflexivity | now rewrite app_nil_r].
  - now rewrite app_nil_r.
Qed.

Lemma forEach_visitLink (links : list Link) (acc : list ShortenedLink) :
  fold_left (visitLink window) links acc =
  (acc ++ map (entryOf window) (filter (isReported window) links))%list.
Proof.
  revert acc. induction links as [|l links IH]; intros acc; simpl.
  - now rewrite app_nil_r.
  - rewrite IH, visitLink_step, <- app_assoc.
    now destruct (isReported window l).
Qed.

(** What the scan does, in the code's own terms: it reports the links
    for which its test [isShortened] holds, each with its entry, in the
    order of the input; scanning a concatenation gives the concatenation
    of the scans, and a reported link given [n] times is reported [n]
    times. *)
Lemma linksFound_in_scan_order (links : list Link) :
  linksFound window links =
    map (entryOf window) (filter (isReported window) links) /\
  (forall l, isReported window l = true <->
     exists d, scannedDomain window l = Some d /\ In d URL_SHORTENERS) /\
  (forall more, linksFound window (links ++ more)%list =
     (linksFound window links ++ linksFound window more)%list) /\
  (forall l n, isReported window l = true ->
     linksFound window (repeat l n) = repeat (entryOf window l) n).
Proof.
  assert (F : forall ls, linksFound window ls =
                map (entryOf window) (filter (isReported window) ls)).
  { intros ls. unfold linksFound. now rewrite forEach_visitLink. }
  split; [apply F|]. split; [|split].
  - intros l. unfold isReported.
    destruct (scannedDomain window l) as [d|].
    + rewrite someShortener_iff. split.
      * intros H. now exists d.
      * intros (d' & E & H). now inversion E; subst.
    + split; [discriminate | intros (d' & E & _); discriminate].
  - intros more. now rewrite !F, filter_app, map_app.
  - intros l n H. rewrite F. induction n as [|n IH]; simpl; [reflexivity|].
    now rewrite H, <- IH.
Qed.

(** On a hostname in which [www.] occurs at the front or not at all, the
    code's [replace] is the specification's leading strip. *)
Lemma replace_www_when_leading (h : string) :
  startsWith h "www." = true \/ includes h "www." = false ->
  replace h "www." EmptyString = stripLeadingWww h.
Proof.
  unfold stripLeadingWww. intros [H|H].
  - now rewrite (replace_at_prefix _ _ _ H), H.
  - rewrite (replace_absent _ _ _ H).
    destruct (startsWith h "www.") eqn:S; [|reflexivity].
    apply startsWith_iff in S as [t St].
    assert (I : includes h "www." = true).
    { apply includes_iff. exists EmptyString, t. exact St. }
    congruence.
Qed.

(** When no link of the page has a [www.] inside its hostname, the scan
    reports exactly the links the specification asks for, in the order
    of the input and with repeats kept. *)
Lemma linksFound_leading_www (links : list Link) :
  (forall l h, In l links -> URL_hostname window (link_href l) = Some h ->
     startsWith h "www." = true \/ includes h "www." = false) ->
  linksFound window links =
    map (entryOf window) (findShortenedLinks_spec window links).
Proof.
  intros H. destruct (linksFound_in_scan_order links) as [-> _].
  unfold findShortenedLinks_spec. f_equal. apply filter_ext_in.
  intros l Hl. unfold isReported, isShortenedLink_spec, scannedDomain, linkDomain_spec.
  destruct (URL_hostname window (link_href l)) as [h|] eqn:E; [|reflexivity].
  cbn [option_map]. now rewrite (replace_www_when_leading h (H l h Hl E)).
Qed.

End ShortenerMatcher.

(** The same [bit.ly] anchor twice: two entries come back. *)
Example linksFound_same_link_twice :
  let bitly := {| Content.link_href := "https://bit.ly/a"; Content.textContent := " one " |} in
  Content.linksFound (Sample.pageAt "a.com") (repeat bitly 2) =
    [ {| Content.sl_url := "https://bit.ly/a"; Content.sl_domain := "bit.ly";
         Content.sl_text := "one" |};
      {| Content.sl_url := "https://bit.ly/a"; Content.sl_domain := "bit.ly";
         Content.sl_text := "one" |} ].
Proof.
  intros bitly.
  apply (proj2 (proj2 (proj2 (linksFound_in_scan_order (Sample.pageAt "a.com") [])))
           bitly 2).
  reflexivity.
Qed.

(** A page with five anchors: [bit.ly] twice, an unparseable [href] in
    between, a [www.t.co] link and a link to an ordinary site. *)
Example linksFound_mixed_page :
  map Content.sl_domain
    (Content.linksFound (Sample.pageAt "a.com")
       [ {| Content.link_href := "https://bit.ly/a"; Content.textContent := " one " |};
         {| Content.link_href := "nope"; Content.textContent := "x" |};
         {| Content.link_href := "https://www.t.co/a"; Content.textContent := "two" |};
         {| Content.link_href := "https://bit.ly/a"; Content.textContent := " one " |};
         {| Content.link_href := "https://example.com/"; Content.textContent := "ex" |} ])
  = ["bit.ly"; "t.co"; "bit.ly"].
Proof. reflexivity. Qed.

(** The scan of the anchors normalises with the same expression: a link
    to [bit.www.ly] is reported under the domain [bit.ly]. *)
Example linksFound_inner_www :
  Content.linksFound (Sample.pageAt "a.com")
    [ {| Content.link_href := "https://bit.www.ly/x"; Content.textContent := "offer" |} ]
  = [ {| Content.sl_url := "https://bit.www.ly/x"; Content.sl_domain := "bit.ly";
         Content.sl_text := "offer" |} ].
Proof. reflexivity. Qed.

(** The three hostnames the specification lists. *)
Example detectUrlShortener_listed_hostnames :
  Content.isShortener (Content.detectUrlShortener (Sample.pageAt "bit.ly")) = true /\
  Content.isShortener (Content.detectUrlShortener (Sample.pageAt "www.bit.ly")) = true /\
  Content.isShortener (Content.detectUrlShortener (Sample.pageAt "notbit.ly")) = false.
Proof. repeat split. Qed.

(** C2, as the code has it.  On the hostname [bit.www.ly] the code
    removes the inner [www.], compares [bit.ly] with the list and
    answers [true]; the hostname has no leading [www.], is left as it is
    by the specification's normalisation, and is not a member of the
    list. *)
Theorem detectUrlShortener_inner_www :
  Content.isShortener (Content.detectUrlShortener (Sample.pageAt "bit.www.ly")) = true /\
  Content.domain (Content.detectUrlShortener (Sample.pageAt "bit.www.ly")) = "bit.ly" /\
  Spec.stripLeadingWww "bit.www.ly" = "bit.www.ly" /\
  Spec.isShortener_spec "bit.www.ly" = false /\
  ~ In "bit.www.ly" Content.URL_SHORTENERS.
Proof.
  repeat split.
  intros H. apply (someShortener_iff "bit.www.ly") in H. discriminate.
Qed.

(** C9, as the code has it.  The link scan normalises a hostname with
    the same unanchored [replace] as [detectUrlShortener].  The anchor
    [https://bit.www.ly/x] is reported, under the domain [bit.ly]; its
    hostname has no leading [www.], so its normalised domain in the
    specification's sense is [bit.www.ly], which is not a member of the
    list, and the links the specification asks for are none. *)
Theorem linksFound_reports_inner_www :
  let link := {| Content.link_href := "https://bit.www.ly/x";
                 Content.textContent := "offer" |} in
  Content.linksFound (Sample.pageAt "a.com") [link] =
    [ {| Content.sl_url := "https://bit.www.ly/x"; Content.sl_domain := "bit.ly";
         Content.sl_text := "offer" |} ] /\
  Spec.linkDomain_spec (Sample.pageAt "a.com") link = Some "bit.www.ly" /\
  ~ In "bit.www.ly" Content.URL_SHORTENERS /\
  Spec.isShortenedLink_spec (Sample.pageAt "a.com") link = false /\
  Spec.findShortenedLinks_spec (Sample.pageAt "a.com") [link] = [].
Proof.
  intros link. split; [reflexivity|]. split; [reflexivity|]. split.
  - intros H. apply (someShortener_iff "bit.www.ly") in H. discriminate.
  - split; reflexivity.
Qed.

(* ================================================================= *)
(** ** The reply to a reputation check and its display *)

Section ReputationReply.
Import JS Background Popup.

Local Open Scope Z_scope.

(** X1.  Whatever the lookup gives, the reply is a successful one whose
    score is 0 with the label Safe, or 40 with the label Suspicious and
    the status Malicious: the labels High Risk and Unknown are never
    sent. *)
Theorem reply_is_safe_or_suspicious (u : string) (outcome : LookupOutcome) :
  exists d,
    onCheckReputation u outcome = Success d /\
    ((data_riskScore d = 0 /\ data_riskLabel d = "Safe" /\
      data_status d <> "Malicious") \/
     (data_riskScore d = 40 /\ data_riskLabel d = "Suspicious" /\
      data_status d = "Malicious")).
Proof.
  eexists. split; [reflexivity|].
  destruct outcome as [[[[|m ms]|]]|msg]; cbn;
    solve [ left; repeat split; discriminate
          | right; repeat split ].
Qed.

(** X2.  The reply carries an error text exactly when the lookup failed
    with a non-empty message, and then the text is that message and the
    status is Error. *)
Theorem reply_error_iff_failed (u : string) (outcome : LookupOutcome) (msg : string) :
  (exists d, onCheckReputation u outcome = Success d /\ data_error d = Some msg) <->
  (outcome = Rejected msg /\ msg <> EmptyString).
Proof.
  split.
  - intros (d & E & H). unfold onCheckReputation in E. inversion E; subst d; clear E.
    cbn [data_error] in H.
    destruct outcome as [[[[|m ms]|]]|m]; cbn in H; try discriminate.
    destruct (String.eqb_spec m EmptyString); [discriminate|].
    inversion H; subst. split; [reflexivity | assumption].
  - intros [-> N]. eexists. split; [reflexivity|]. cbn.
    apply String.eqb_neq in N. now rewrite N.
Qed.

Lemma reply_error_iff_failed_witness :
  exists d,
    onCheckReputation "https://example.com/" (Rejected "Failed to fetch") = Success d /\
    data_error d = Some "Failed to fetch".
Proof.
  apply (proj2 (reply_error_iff_failed "https://example.com/"
                  (Rejected "Failed to fetch") "Failed to fetch")).
  split; [reflexivity | discriminate].
Defined.

(** X3.  When the label of a reply is the one [getRiskLabel] gives its
    score, the popup colours the risk bar and the final label alike:
    both safe, both suspicious, both high, or both without a colour
    class (a score outside 0..100). *)
Theorem bar_and_label_agree (d : ReputationData) :
  data_riskLabel d = getRiskLabel (data_riskScore d) ->
  let v := displayResults d in
  (riskBar_class v = ["risk-bar"; "risk-safe"] /\
   finalLabel_class v = ["final-label"; "label-safe"] /\
   0 <= data_riskScore d <= 30) \/
  (riskBar_class v = ["risk-bar"; "risk-suspicious"] /\
   finalLabel_class v = ["final-label"; "label-suspicious"] /\
   31 <= data_riskScore d <= 60) \/
  (riskBar_class v = ["risk-bar"; "risk-high"] /\
   finalLabel_class v = ["final-label"; "label-high-risk"] /\
   61 <= data_riskScore d <= 100) \/
  (riskBar_class v = ["risk-bar"] /\
   finalLabel_class v = ["final-label"] /\
   (data_riskScore d < 0 \/ 100 < data_riskScore d)).
Proof.
  intros E v. subst v. unfold displayResults. cbn [riskBar_class finalLabel_class].
  rewrite E. unfold getRiskLabel.
  destruct (Z.leb_spec 0 (data_riskScore d)); destruct (Z.leb_spec (data_riskScore d) 30);
  destruct (Z.leb_spec 31 (data_riskScore d)); destruct (Z.leb_spec (data_riskScore d) 60);
  destruct (Z.leb_spec 61 (data_riskScore d)); destruct (Z.leb_spec (data_riskScore d) 100);
  cbn; try lia;
  solve [ left; repeat split; lia
        | right; left; repeat split; lia
        | right; right; left; repeat split; lia
        | right; right; right; repeat split; lia ].
Qed.

Lemma bar_and_label_agree_witness :
  riskBar_class (displayResults
    {| data_url := "https://example.com/"; data_status := "Malicious";
       data_threatType := "MALWARE"; data_riskScore := 40;
       data_riskLabel := "Suspicious"; data_error := None |})
  = ["risk-bar"; "risk-suspicious"].
Proof.
  destruct (bar_and_label_agree
    {| data_url := "https://example.com/"; data_status := "Malicious";
       data_threatType := "MALWARE"; data_riskScore := 40;
       data_riskLabel := "Suspicious"; data_error := None |} eq_refl)
    as [(_ & _ & H)|[(E & _)|[(_ & _ & H)|(_ & _ & H)]]];
    [ cbn in H; lia | exact E | cbn in H; lia | cbn in H; lia ].
Defined.

(** X4.  A failed lookup does not reach the error panel of the popup:
    the reply is drawn as a result, with the error badge, the bar and the
    final label in the safe colour and the label text Safe, and the panel
    is the same whatever the failure message was. *)
Theorem failed_lookup_is_drawn_as_result (u message : string) :
  exists v,
    onCustomUrlReply (Some (onCheckReputation u (Rejected message))) = Results v /\
    statusBadge_class v = ["status-badge"; "status-error"] /\
    riskBar_class v = ["risk-bar"; "risk-safe"] /\
    finalLabel_text v = "Safe" /\
    finalLabel_class v = ["final-label"; "label-safe"] /\
    forall message',
      onCustomUrlReply (Some (onCheckReputation u (Rejected message'))) = Results v.
Proof.
  eexists. split; [reflexivity|]. cbn. repeat split.
Qed.

End ReputationReply.

(* ================================================================= *)
(** ** The popup's text helpers *)

Section PopupText.
Import JS Popup Props.

Lemma toLowerChar_toUpperChar (c : ascii) :
  toLowerChar (toUpperChar c) = toLowerChar c.
Proof. destruct c as [[] [] [] [] [] [] [] []]; reflexivity. Qed.

Lemma toLowerChar_idem (c : ascii) : toLowerChar (toLowerChar c) = toLowerChar c.
Proof. destruct c as [[] [] [] [] [] [] [] []]; reflexivity. Qed.

Lemma toLowerChar_underscore (c : ascii) :
  Ascii.eqb (toLowerChar c) "_" = Ascii.eqb c "_".
Proof. destruct c as [[] [] [] [] [] [] [] []]; reflexivity. Qed.

Lemma toLowerCase_idem (s : string) : toLowerCase (toLowerCase s) = toLowerCase s.
Proof.
  induction s as [|c s IH]; simpl; [reflexivity|].
  now rewrite toLowerChar_idem, IH.
Qed.

Lemma toLowerCase_length (s : string) :
  String.length (toLowerCase s) = String.length s.
Proof. induction s as [|c s IH]; simpl; [reflexivity | now rewrite IH]. Qed.

Lemma toLowerCase_capitalize (w : string) :
  toLowerCase (capitalize w) = toLowerCase w.
Proof.
  destruct w as [|c w]; simpl; [reflexivity|].
  now rewrite toLowerChar_toUpperChar, toLowerCase_idem.
Qed.

Lemma split_underscore_cons (s : string) :
  exists w ws, split_underscore s = w :: ws.
Proof.
  induction s as [|c s (w & ws & IH)]; simpl.
  - now exists EmptyString, [].
  - destruct (Ascii.eqb c "_").
    + now exists EmptyString, (split_underscore s).
    + rewrite IH. now exists (String c w), ws.
Qed.

(** Joining the pieces of [split('_')] with spaces puts a space where
    each underscore was. *)
Lemma join_split_underscore (s : string) :
  String.concat " " (split_underscore s) = underscoresToSpaces s.
Proof.
  induction s as [|c s IH]; simpl; [reflexivity|].
  destruct (split_underscore_cons s) as (w & ws & E).
  rewrite E in *. destruct (Ascii.eqb c "_").
  - simpl. now rewrite <- IH.
  - rewrite <- IH. destruct ws; reflexivity.
Qed.

Lemma toLowerCase_join_capitalize (l : list string) :
  toLowerCase (String.concat " " (map capitalize l)) =
  toLowerCase (String.concat " " l).
Proof.
  induction l as [|w l IH]; [reflexivity|].
  destruct l as [|w' l].
  - simpl. apply toLowerCase_capitalize.
  - change (String.concat " " (map capitalize (w :: w' :: l)))
      with (capitalize w ++ " " ++ String.concat " " (map capitalize (w' :: l))).
    change (String.concat " " (w :: w' :: l))
      with (w ++ " " ++ String.concat " " (w' :: l)).
    now rewrite !toLowerCase_app, toLowerCase_capitalize, IH.
Qed.

Lemma toLowerCase_underscoresToSpaces (s : string) :
  toLowerCase (underscoresToSpaces s) = underscoresToSpaces (toLowerCase s).
Proof.
  induction s as [|c s IH]; simpl; [reflexivity|].
  rewrite IH, toLowerChar_underscore.
  now destruct (Ascii.eqb c "_").
Qed.

(** X5.  For a threat type written in ASCII, the text None apart,
    formatting changes nothing but the case of letters and turns each
    underscore into a space: the result has the length of the input and,
    in lower case, is the lower-cased input with spaces for
    underscores. *)
Theorem formatThreatType_keeps_text (threatType : string) :
  isAscii threatType = true ->
  threatType <> "None" ->
  toLowerCase (formatThreatType threatType) =
    underscoresToSpaces (toLowerCase threatType) /\
  String.length (formatThreatType threatType) = String.length threatType.
Proof.
  intros _ N. unfold formatThreatType.
  apply String.eqb_neq in N. rewrite N.
  assert (E : toLowerCase (String.concat " " (map capitalize (split_underscore threatType)))
              = underscoresToSpaces (toLowerCase threatType)).
  { now rewrite toLowerCase_join_capitalize, join_split_underscore,
      toLowerCase_underscoresToSpaces. }
  split; [exact E|].
  rewrite <- (toLowerCase_length (String.concat _ _)), E.
  rewrite <- (toLowerCase_length threatType).
  generalize (toLowerCase threatType). intros s.
  induction s as [|c s IH]; simpl; [reflexivity | now rewrite IH].
Qed.

Lemma formatThreatType_keeps_text_witness :
  toLowerCase (formatThreatType "SOCIAL_ENGINEERING") = "social engineering" /\
  String.length (formatThreatType "SOCIAL_ENGINEERING") = 18%nat.
Proof.
  apply (formatThreatType_keeps_text "SOCIAL_ENGINEERING");
    [reflexivity | discriminate].
Defined.

Lemma blank_false_trim (s : string) : blank s = false -> trim s <> EmptyString.
Proof. intros B E. apply trim_empty_iff in E. congruence. Qed.

(** X6.  A click on the custom-URL button with an empty or blank input
    asks for a URL and checks nothing; otherwise the URL handed to the
    check is the trimmed input when that starts with [http://] or
    [https://], and the trimmed input behind [https://] when it does
    not, so it always starts with one of the two. *)
Theorem custom_url_gets_a_scheme (value : string) :
  (blank value = true ->
     onCheckCustomUrlClick value = AskForUrl "Please enter a URL") /\
  (blank value = false ->
     exists urlToCheck,
       onCheckCustomUrlClick value = CheckUrl urlToCheck /\
       startsWith urlToCheck "http://" || startsWith urlToCheck "https://" = true /\
       (urlToCheck = trim value \/
        urlToCheck = "https://" ++ trim value /\
        startsWith (trim value) "http://" || startsWith (trim value) "https://" = false)).
Proof.
  unfold onCheckCustomUrlClick. split; intros B.
  - apply trim_empty_iff in B. now rewrite B.
  - apply blank_false_trim, String.eqb_neq in B. rewrite B.
    destruct (startsWith (trim value) "http://" || startsWith (trim value) "https://") eqn:S.
    + exists (trim value). split; [reflexivity|]. split; [exact S | now left].
    + exists ("https://" ++ trim value). split; [reflexivity|]. split.
      * rewrite (startsWith_app "https://" (trim value)). apply orb_true_r.
      * right. split; reflexivity.
Qed.

Lemma custom_url_gets_a_scheme_witness :
  onCheckCustomUrlClick "   " = AskForUrl "Please enter a URL" /\
  exists urlToCheck,
    onCheckCustomUrlClick " example.com " = CheckUrl urlToCheck /\
    startsWith urlToCheck "http://" || startsWith urlToCheck "https://" = true.
Proof.
  split.
  - apply (proj1 (custom_url_gets_a_scheme "   ")). reflexivity.
  - destruct (proj2 (custom_url_gets_a_scheme " example.com ") eq_refl)
      as (u & E & S & _).
    exists u. split; [exact E | exact S].
Defined.

End PopupText.

(* ================================================================= *)
(** ** More on the lexical classifier *)

Section LexicalMore.
Import JS Content Spec Props.

(** X7.  The watch-page check decides as [shouldPlayVideo] does on the
    same title and description. *)
Theorem watch_page_decides_like_shouldPlayVideo (title description : string) :
  Study.shouldPlayWatchPage title description =
  shouldPlayVideo {| getVideoTitle := title; getVideoDescription := description |}.
Proof.
  unfold Study.shouldPlayWatchPage, shouldPlayVideo.
  cbn [getVideoTitle getVideoDescription].
  now destruct (hasBlockKeyword title || hasBlockKeyword description).
Qed.

Lemma hasKeywordOf_same_case (KEYWORDS : list string) (t1 t2 : string) :
  toLowerCase t1 = toLowerCase t2 ->
  hasKeywordOf KEYWORDS t1 = hasKeywordOf KEYWORDS t2.
Proof.
  intros E. unfold hasKeywordOf. rewrite !blank_guard.
  rewrite <- (blank_toLowerCase t1), <- (blank_toLowerCase t2), E.
  reflexivity.
Qed.

(** X8.  Two videos whose titles differ only in letter case, and whose
    descriptions differ only in letter case, get the same verdict. *)
Theorem verdict_ignores_letter_case (v1 v2 : VideoElement) :
  toLowerCase (getVideoTitle v1) = toLowerCase (getVideoTitle v2) ->
  toLowerCase (getVideoDescription v1) = toLowerCase (getVideoDescription v2) ->
  shouldPlayVideo v1 = shouldPlayVideo v2.
Proof.
  intros Et Ed. unfold shouldPlayVideo, hasBlockKeyword, hasStudyKeyword.
  now rewrite (hasKeywordOf_same_case BLOCK_KEYWORDS _ _ Et),
              (hasKeywordOf_same_case BLOCK_KEYWORDS _ _ Ed),
              (hasKeywordOf_same_case STUDY_KEYWORDS _ _ Et),
              (hasKeywordOf_same_case STUDY_KEYWORDS _ _ Ed).
Qed.

Lemma verdict_ignores_letter_case_witness :
  shouldPlayVideo {| getVideoTitle := "LINEAR ALGEBRA"; getVideoDescription := "Week 1" |} =
  shouldPlayVideo {| getVideoTitle := "Linear Algebra"; getVideoDescription := "week 1" |}.
Proof.
  apply verdict_ignores_letter_case; reflexivity.
Defined.

Lemma app_assoc_str (a b c : string) : (a ++ b) ++ c = a ++ b ++ c.
Proof. induction a as [|x a IH]; simpl; [reflexivity | now rewrite IH]. Qed.

(** Containment is transitive: a keyword inside a keyword inside a text. *)
Lemma containsCI_trans (text k b : string) :
  containsCI text k -> containsCI k b -> containsCI text b.
Proof.
  intros (p & q & E) (p' & q' & E'). unfold containsCI.
  exists (p ++ p'), (q' ++ q).
  now rewrite E, E', !app_assoc_str.
Qed.

Lemma shadowed_has_block_keyword (k : string) :
  In k shadowedStudyKeywords ->
  In k STUDY_KEYWORDS /\ matchesSet BLOCK_KEYWORDS k.
Proof.
  unfold shadowedStudyKeywords. rewrite filter_In, existsb_exists.
  intros (Hk & b & Hb & I). split; [exact Hk|].
  exists b. split; [exact Hb|]. now apply includes_iff.
Qed.

(** X9.  Ten study keywords have a block keyword inside them ([cod]
    inside [coding], [series] inside [lecture series], ...), and a video
    whose title or description contains one of the ten is blocked: these
    study keywords never let a video through on their own account. *)
Theorem shadowed_study_keywords_block (v : VideoElement) (k : string) :
  shadowedStudyKeywords =
    ["lecture series"; "code walkthrough"; "live coding";
     "interview preparation"; "final exam review"; "coding";
     "job interview"; "programming interview"; "coding interview";
     "leetcode"] /\
  (In k shadowedStudyKeywords ->
   containsCI (getVideoTitle v) k \/ containsCI (getVideoDescription v) k ->
   In k STUDY_KEYWORDS /\ shouldPlayVideo v = false).
Proof.
  split; [vm_compute; reflexivity|].
  intros Hk H.
  destruct (shadowed_has_block_keyword k Hk) as (Hs & b & Hb & Hkb).
  split; [exact Hs|].
  assert (B : hasBlockKeyword (getVideoTitle v) || hasBlockKeyword (getVideoDescription v) = true).
  { apply orb_true_iff.
    destruct H as [H|H]; [left|right]; apply hasBlockKeyword_iff;
      exists b; (split; [exact Hb | exact (containsCI_trans _ _ _ H Hkb)]). }
  unfold shouldPlayVideo. now rewrite B.
Qed.

Lemma shadowed_study_keywords_block_witness :
  hasStudyKeyword "Live Coding: sorting networks" = true /\
  shouldPlayVideo {| getVideoTitle := "Live Coding: sorting networks";
                     getVideoDescription := EmptyString |} = false.
Proof.
  split; [reflexivity|].
  apply (proj2 (shadowed_study_keywords_block
                  {| getVideoTitle := "Live Coding: sorting networks";
                     getVideoDescription := EmptyString |} "coding")).
  - vm_compute. tauto.
  - left. exists "live ", ": sorting networks". reflexivity.
Defined.

End LexicalMore.

(* ================================================================= *)
(** ** The scrapers *)

Section Scrapers.
Import JS Content Props.

Lemma trimStart_noLeadingSpace (s : string) : noLeadingSpace (trimStart s) = true.
Proof.
  induction s as [|c s IH]; simpl; [reflexivity|].
  destruct (isWhiteSpace c) eqn:W; [exact IH | simpl; now rewrite W].
Qed.

Lemma trimStart_fixed (s : string) : noLeadingSpace s = true -> trimStart s = s.
Proof.
  destruct s as [|c s]; simpl; [reflexivity|].
  intros H. apply negb_true_iff in H. now rewrite H.
Qed.

Lemma trimEnd_noLeadingSpace (s : string) :
  noLeadingSpace s = true -> noLeadingSpace (trimEnd s) = true.
Proof.
  destruct s as [|c s]; simpl; [reflexivity|].
  intros H. destruct (trimEnd s).
  - apply negb_true_iff in H. rewrite H. simpl. now rewrite H.
  - exact H.
Qed.

Lemma trimEnd_idem (s : string) : trimEnd (trimEnd s) = trimEnd s.
Proof.
  induction s as [|c s IH]; simpl; [reflexivity|].
  destruct (trimEnd s) as [|a t] eqn:E.
  - destruct (isWhiteSpace c) eqn:W; simpl; [reflexivity | now rewrite W].
  - change (trimEnd (String c (String a t)))
      with (match trimEnd (String a t) with
            | EmptyString => if isWhiteSpace c then EmptyString else String c EmptyString
            | String _ _ as u => String c u
            end).
    now rewrite IH.
Qed.

(** Trimming twice is trimming once. *)
Lemma trim_idem (s : string) : trim (trim s) = trim s.
Proof.
  unfold trim.
  rewrite (trimStart_fixed (trimEnd (trimStart s))).
  - apply trimEnd_idem.
  - apply trimEnd_noLeadingSpace, trimStart_noLeadingSpace.
Qed.

Lemma firstVisibleText_trimmed (q : string -> option string) (selectors : list string)
      (text : string) :
  Scrape.firstVisibleText q selectors = Some text ->
  trim text = text /\ blank text = false.
Proof.
  induction selectors as [|sel rest IH]; simpl; [discriminate|].
  destruct (q sel) as [t|]; [|exact IH].
  destruct (Scrape.hasVisibleText t) eqn:V; [|exact IH].
  intros E. inversion E; subst text; clear E. split; [apply trim_idem|].
  unfold Scrape.hasVisibleText in V. apply andb_true_iff in V as [_ V].
  apply negb_true_iff, String.eqb_neq in V.
  destruct (blank (trim t)) eqn:B; [|reflexivity].
  apply trim_empty_iff in B. rewrite trim_idem in B. contradiction.
Qed.

(** X10.  The scraped title and the scraped description come out
    trimmed: trimming them again changes nothing. *)
Theorem scraped_texts_are_trimmed (v : Scrape.VideoDom) :
  trim (Scrape.getVideoTitle v) = Scrape.getVideoTitle v /\
  trim (Scrape.getVideoDescription v) = Scrape.getVideoDescription v.
Proof.
  unfold Scrape.getVideoTitle, Scrape.getVideoDescription. split.
  - destruct (Scrape.firstVisibleText _ Scrape.titleSelectors) as [t|] eqn:E.
    + now apply firstVisibleText_trimmed in E.
    + destruct (Scrape.aria_label v); [apply trim_idem | reflexivity].
  - destruct (Scrape.firstVisibleText _ Scrape.descriptionSelectors) as [t|] eqn:E.
    + now apply firstVisibleText_trimmed in E.
    + apply trim_idem.
Qed.

Lemma visitMetadataLine_ignored (descriptionText line : string) :
  ignoredLine line = true ->
  Scrape.visitMetadataLine descriptionText line = descriptionText.
Proof.
  unfold ignoredLine, Scrape.visitMetadataLine. intros H.
  destruct (Scrape.hasVisibleText line); [|reflexivity].
  rewrite Nat.ltb_antisym.
  simpl in H.
  destruct (String.length (trim line) <=? 50)%nat; [reflexivity|].
  simpl in H. apply orb_true_iff in H as [H|H]; rewrite H; simpl;
    [reflexivity | now rewrite andb_false_r].
Qed.

Lemma forEach_metadata_filter (lines : list string) (descriptionText : string) :
  fold_left Scrape.visitMetadataLine lines descriptionText =
  fold_left Scrape.visitMetadataLine
            (filter (fun l => negb (ignoredLine l)) lines) descriptionText.
Proof.
  revert descriptionText. induction lines as [|l lines IH]; intros acc; simpl;
    [reflexivity|].
  destruct (ignoredLine l) eqn:I; simpl.
  - rewrite (visitMetadataLine_ignored _ _ I). apply IH.
  - apply IH.
Qed.

(** X11.  Metadata lines without visible text, of at most 50 code units
    once trimmed, or with a bullet or the word [views] in them play no
    part in the description: removing them from the renderer leaves the
    scraped description as it was. *)
Theorem description_ignores_short_lines (v : Scrape.VideoDom) :
  Scrape.getVideoDescription v =
  Scrape.getVideoDescription
    (withMetadataLines v
       (filter (fun l => negb (ignoredLine l)) (Scrape.metadataLines v))).
Proof.
  unfold Scrape.getVideoDescription, withMetadataLines.
  cbn [Scrape.querySelector_textContent Scrape.metadataLines].
  destruct (Scrape.firstVisibleText _ _); [reflexivity|].
  now rewrite forEach_metadata_filter.
Qed.

Lemma firstVisibleText_none (q : string -> option string) (selectors : list string) :
  (forall selector textContent, q selector = Some textContent -> blank textContent = true) ->
  Scrape.firstVisibleText q selectors = None.
Proof.
  intros H. induction selectors as [|sel rest IH]; simpl; [reflexivity|].
  destruct (q sel) as [t|] eqn:E; [|exact IH].
  unfold Scrape.hasVisibleText.
  assert (T : trim t = EmptyString) by (apply trim_empty_iff; eauto).
  rewrite T. simpl. rewrite andb_false_r. exact IH.
Qed.

(** X12.  A renderer in which nothing the scrapers look at carries
    visible text has an empty title and an empty description, and is
    blocked. *)
Theorem nothing_visible_is_blocked (v : Scrape.VideoDom) :
  nothingVisible v ->
  Scrape.getVideoTitle v = EmptyString /\
  Scrape.getVideoDescription v = EmptyString /\
  Scrape.shouldPlayVideo v = false.
Proof.
  intros (Hq & Ha & Hl).
  assert (T : Scrape.getVideoTitle v = EmptyString).
  { unfold Scrape.getVideoTitle. rewrite (firstVisibleText_none _ _ Hq).
    destruct (Scrape.aria_label v) as [a|] eqn:E; [|reflexivity].
    apply trim_empty_iff. eauto. }
  assert (D : Scrape.getVideoDescription v = EmptyString).
  { unfold Scrape.getVideoDescription. rewrite (firstVisibleText_none _ _ Hq).
    rewrite forEach_metadata_filter.
    replace (filter (fun l => negb (ignoredLine l)) (Scrape.metadataLines v))
      with (@nil string); [reflexivity|].
    symmetry. induction (Scrape.metadataLines v) as [|l ls IH]; [reflexivity|].
    simpl. rewrite (Hl l (or_introl eq_refl)). simpl.
    apply IH. intros x Hx. apply Hl. now right. }
  repeat split; [exact T | exact D |].
  unfold Scrape.shouldPlayVideo, Scrape.scraped, shouldPlayVideo.
  cbn [getVideoTitle getVideoDescription]. rewrite T, D. reflexivity.
Qed.

Lemma nothing_visible_is_blocked_witness :
  Scrape.shouldPlayVideo
    {| Scrape.querySelector_textContent := fun _ => None;
       Scrape.aria_label := Some "  ";
       Scrape.metadataLines := ["12K views"; "3 days ago"] |} = false.
Proof.
  apply (nothing_visible_is_blocked
    {| Scrape.querySelector_textContent := fun _ => None;
       Scrape.aria_label := Some "  ";
       Scrape.metadataLines := ["12K views"; "3 days ago"] |}).
  split; [|split].
  - intros sel t E. discriminate E.
  - intros a E. inversion E. reflexivity.
  - intros l [<-|[<-|[]]]; reflexivity.
Defined.

End Scrapers.

(* ================================================================= *)
(** ** A list against its image *)

Lemma Forall2_map_right {A B : Type} (R : A -> B -> Prop) (f : A -> B) (l : list A) :
  (forall x, In x l -> R x (f x)) -> Forall2 R l (map f l).
Proof.
  induction l as [|x l IH]; intros H; simpl; constructor.
  - apply H. now left.
  - apply IH. intros y Hy. apply H. now right.
Qed.

(* ================================================================= *)
(** ** Blocking and cleaning up on YouTube *)

Section StudyDom.
Import JS Content Study Props.

Variable window : Page.
Hypothesis onYouTube : isYouTube window = true.

Ltac node_fields :=
  cbn [tagName title view display opacity position studyOverlays anchors].

Lemma hideShort_keeps (n : Node) :
  tagName (hideShort n) = tagName n /\ title (hideShort n) = title n /\
  view (hideShort n) = view n /\ opacity (hideShort n) = opacity n /\
  position (hideShort n) = position n /\
  studyOverlays (hideShort n) = studyOverlays n /\
  anchors (hideShort n) = anchors n.
Proof. unfold hideShort. destruct (matchesShortsSelector n); repeat split. Qed.

Lemma visitVideo_keeps (n : Node) :
  tagName (visitVideo n) = tagName n /\ title (visitVideo n) = title n /\
  view (visitVideo n) = view n /\ display (visitVideo n) = display n.
Proof.
  unfold visitVideo.
  destruct (negb _); [destruct (_ =? _)%nat|]; repeat split.
Qed.

Lemma isVideoRenderer_tag (n m : Node) :
  tagName n = tagName m -> isVideoRenderer n = isVideoRenderer m.
Proof. unfold isVideoRenderer. now intros ->. Qed.

Lemma forEach_distinct_selectors (selectors : list string) (ns : list Node) :
  NoDup selectors ->
  fold_left visitSelector selectors ns =
  map (fun n => if existsb (String.eqb (tagName n)) selectors then visitVideo n else n) ns.
Proof.
  intros D. revert ns. induction D as [|s selectors Hs D IH]; intros ns; simpl.
  - symmetry. apply map_id.
  - rewrite IH. unfold visitSelector. rewrite map_map. apply map_ext. intros n.
    destruct (String.eqb_spec (tagName n) s) as [E|N]; [|reflexivity].
    destruct (visitVideo_keeps n) as (T & _). rewrite T, E. cbn [orb].
    replace (existsb (String.eqb s) selectors) with false; [reflexivity|].
    symmetry. apply not_true_is_false. intros X.
    apply existsb_exists in X as (x & Hx & Ex). apply String.eqb_eq in Ex.
    now subst x.
Qed.

(** The four rounds over the selectors visit each video renderer once. *)
Lemma forEach_selector (ns : list Node) :
  fold_left visitSelector videoSelectors ns =
  map (fun n => if isVideoRenderer n then visitVideo n else n) ns.
Proof.
  apply forEach_distinct_selectors. unfold videoSelectors.
  repeat constructor; simpl; intuition discriminate.
Qed.

Lemma blockNonStudyVideos_nodes (d : Document) :
  nodes (blockNonStudyVideos true window d) = map blockNode (nodes d).
Proof.
  unfold blockNonStudyVideos. rewrite onYouTube. cbn [negb orb withNodes nodes].
  rewrite forEach_selector, map_map. reflexivity.
Qed.

Lemma isVideoRenderer_hideShort (n : Node) :
  isVideoRenderer (hideShort n) = isVideoRenderer n.
Proof. apply isVideoRenderer_tag, hideShort_keeps. Qed.

(** X13.  After a run of [blockNonStudyVideos] on YouTube, a video
    renderer that had at most one overlay has exactly one when the
    classifier blocks it and none when the classifier lets it play;
    elements that are not video renderers keep their overlay count, their
    opacity, their position and their anchors. *)
Theorem overlay_marks_blocked_videos (d : Document) :
  Forall2
    (fun n n' =>
       tagName n' = tagName n /\ view n' = view n /\
       (isVideoRenderer n = true -> studyOverlays n <= 1 ->
          studyOverlays n' = if Scrape.shouldPlayVideo (view n) then 0 else 1) /\
       (isVideoRenderer n = false ->
          studyOverlays n' = studyOverlays n /\ opacity n' = opacity n /\
          position n' = position n /\ anchors n' = anchors n))
    (nodes d) (nodes (blockNonStudyVideos true window d)).
Proof.
  rewrite blockNonStudyVideos_nodes. apply Forall2_map_right. intros n _.
  unfold blockNode. rewrite isVideoRenderer_hideShort.
  destruct (hideShort_keeps n) as (T & _ & V & O & P & S & A).
  destruct (isVideoRenderer n).
  - destruct (visitVideo_keeps (hideShort n)) as (T' & _ & V' & _).
    rewrite T', V', T, V. repeat split; try discriminate.
    intros _ L. unfold visitVideo. rewrite V, S.
    destruct (Scrape.shouldPlayVideo (view n)); cbn [negb studyOverlays].
    + destruct (studyOverlays n) as [|[|k]]; [reflexivity | reflexivity | lia].
    + destruct (studyOverlays n) as [|[|k]] eqn:K; cbn [Nat.eqb studyOverlays];
        [reflexivity | now rewrite S | lia].
  - repeat split; try assumption. discriminate.
Qed.

Lemma blockNonStudyVideos_eq (d : Document) :
  blockNonStudyVideos true window d = withNodes d (map blockNode (nodes d)).
Proof.
  unfold blockNonStudyVideos. rewrite onYouTube. cbn [negb orb].
  now rewrite forEach_selector, map_map.
Qed.

Lemma hideShort_idem (n : Node) : hideShort (hideShort n) = hideShort n.
Proof.
  unfold hideShort. destruct (matchesShortsSelector n) eqn:M.
  - change (matchesShortsSelector _) with (matchesShortsSelector n). now rewrite M.
  - now rewrite M.
Qed.

Lemma hideShort_visitVideo (n : Node) :
  hideShort (visitVideo n) = visitVideo (hideShort n).
Proof.
  destruct n as [tg ti vw di op po so an].
  unfold hideShort, matchesShortsSelector, isReelRenderer.
  destruct (visitVideo_keeps
              {| tagName := tg; title := ti; view := vw; display := di;
                 opacity := op; position := po; studyOverlays := so;
                 anchors := an |}) as (T & I & _).
  rewrite T, I. node_fields.
  destruct (_ || _); [|reflexivity].
  unfold visitVideo. node_fields.
  destruct (negb _); [destruct (_ =? _)%nat|]; reflexivity.
Qed.

Lemma map_enabledAnchor_idem (l : list Anchor) :
  map enabledAnchor (map enabledAnchor l) = map enabledAnchor l.
Proof. rewrite map_map. now apply map_ext. Qed.

Lemma visitVideo_idem (n : Node) :
  studyOverlays n <= 1 -> visitVideo (visitVideo n) = visitVideo n.
Proof.
  destruct n as [tg ti vw di op po so an]. cbn [studyOverlays]. intros L.
  unfold visitVideo. cbn [tagName title view display opacity position studyOverlays anchors].
  destruct (Scrape.shouldPlayVideo vw) eqn:P; cbn [negb].
  - cbn [view]. rewrite P. cbn [negb tagName title view display position studyOverlays anchors].
    rewrite map_enabledAnchor_idem.
    destruct so as [|[|k]]; [reflexivity | reflexivity | lia].
  - destruct so as [|[|k]]; cbn [Nat.eqb]; [| | lia];
      cbn [view studyOverlays]; rewrite P; reflexivity.
Qed.

Lemma blockNode_idem (n : Node) :
  studyOverlays n <= 1 -> blockNode (blockNode n) = blockNode n.
Proof.
  intros L. unfold blockNode. rewrite !isVideoRenderer_hideShort.
  destruct (isVideoRenderer n) eqn:R.
  - rewrite hideShort_visitVideo, hideShort_idem.
    rewrite (isVideoRenderer_tag (visitVideo (hideShort n)) n), R.
    + apply visitVideo_idem.
      destruct (hideShort_keeps n) as (_ & _ & _ & _ & _ & S & _). now rewrite S.
    + destruct (visitVideo_keeps (hideShort n)) as (T & _).
      destruct (hideShort_keeps n) as (T' & _). now rewrite T, T'.
  - now rewrite hideShort_idem, isVideoRenderer_hideShort, R.
Qed.

(** X14.  On a page where no element carries more than one overlay,
    running [blockNonStudyVideos] a second time changes nothing: the
    re-runs from the timers and from the mutation observer are
    harmless. *)
Theorem blockNonStudyVideos_idempotent (d : Document) :
  Forall (fun n => studyOverlays n <= 1) (nodes d) ->
  blockNonStudyVideos true window (blockNonStudyVideos true window d) =
  blockNonStudyVideos true window d.
Proof.
  intros L. rewrite !blockNonStudyVideos_eq.
  unfold withNodes. cbn [nodes player pathname watchTitle watchDescription].
  f_equal. rewrite map_map. apply map_ext_in. intros n Hn.
  apply blockNode_idem. rewrite Forall_forall in L. now apply L.
Qed.

(** X15.  [cleanupYouTubeBlocks] after a blocking run removes every
    overlay, and restores the opacity, the position and the anchors of
    the rich-item and video renderers; but a grid or compact renderer
    that the run blocked stays dimmed at opacity 0.7, positioned
    relative, with its anchors disabled. *)
Theorem cleanup_restores_two_renderer_kinds (d : Document) :
  Forall2
    (fun n n' =>
       studyOverlays n' = 0 /\
       (tagName n = "ytd-rich-item-renderer" \/ tagName n = "ytd-video-renderer" ->
          opacity n' = "1" /\ position n' = EmptyString /\
          anchors n' = map enabledAnchor (anchors n)) /\
       (tagName n = "ytd-grid-video-renderer" \/
        tagName n = "ytd-compact-video-renderer" ->
        studyOverlays n = 0 -> Scrape.shouldPlayVideo (view n) = false ->
          opacity n' = "0.7" /\ position n' = "relative" /\
          anchors n' = map disabledAnchor (anchors n)))
    (nodes d)
    (nodes (cleanupYouTubeBlocks (blockNonStudyVideos true window d))).
Proof.
  unfold cleanupYouTubeBlocks. cbn [nodes].
  rewrite blockNonStudyVideos_nodes, map_map. apply Forall2_map_right. intros n _.
  unfold blockNode. rewrite isVideoRenderer_hideShort.
  destruct (hideShort_keeps n) as (T & _ & V & O & P & S & A).
  split; [reflexivity|]. split.
  - intros Tn.
    assert (R : isVideoRenderer n = true)
      by (unfold isVideoRenderer; destruct Tn as [-> | ->]; reflexivity).
    rewrite R. unfold cleanupNode.
    destruct (visitVideo_keeps (hideShort n)) as (T' & _).
    cbn [opacity position anchors]. rewrite T', T.
    assert (B : String.eqb (tagName n) "ytd-rich-item-renderer" ||
                String.eqb (tagName n) "ytd-video-renderer" = true)
      by (destruct Tn as [-> | ->]; reflexivity).
    rewrite B. repeat split.
    unfold visitVideo. rewrite A.
    destruct (negb _); [destruct (_ =? _)%nat|];
      cbn [anchors]; rewrite ?A, ?map_map; now apply map_ext.
  - intros Tn Z B.
    assert (R : isVideoRenderer n = true)
      by (unfold isVideoRenderer; destruct Tn as [-> | ->]; reflexivity).
    rewrite R. unfold cleanupNode.
    destruct (visitVideo_keeps (hideShort n)) as (T' & _).
    cbn [opacity position anchors]. rewrite T', T.
    assert (N : String.eqb (tagName n) "ytd-rich-item-renderer" ||
                String.eqb (tagName n) "ytd-video-renderer" = false)
      by (destruct Tn as [-> | ->]; reflexivity).
    rewrite N. unfold visitVideo. rewrite V, B, S, Z, A. repeat split.
Qed.

(** X16.  The blocking run hides the reel renderers and every element
    whose [title] contains [Shorts]; the clean-up shows the reel
    renderers again, while an element hidden for its title alone stays
    hidden. *)
Theorem cleanup_leaves_titled_shorts_hidden (d : Document) :
  Forall2
    (fun n n' =>
       (isReelRenderer n = true -> display n' = EmptyString) /\
       (isReelRenderer n = false -> matchesShortsSelector n = true ->
          display n' = "none") /\
       (matchesShortsSelector n = false -> display n' = display n))
    (nodes d)
    (nodes (cleanupYouTubeBlocks (blockNonStudyVideos true window d))).
Proof.
  unfold cleanupYouTubeBlocks. cbn [nodes].
  rewrite blockNonStudyVideos_nodes, map_map. apply Forall2_map_right. intros n _.
  assert (D : display (blockNode n) = display (hideShort n)).
  { unfold blockNode. destruct (isVideoRenderer _); [|reflexivity].
    apply visitVideo_keeps. }
  assert (T : isReelRenderer (blockNode n) = isReelRenderer n).
  { unfold isReelRenderer, blockNode.
    destruct (hideShort_keeps n) as (Tn & _).
    destruct (isVideoRenderer _).
    - destruct (visitVideo_keeps (hideShort n)) as (Tv & _). now rewrite Tv, Tn.
    - now rewrite Tn. }
  unfold cleanupNode. cbn [display]. rewrite T, D. unfold hideShort.
  repeat split.
  - intros R. now rewrite R.
  - intros R M. now rewrite R, M.
  - intros M. rewrite M.
    unfold matchesShortsSelector in M. apply orb_false_iff in M as [R _].
    now rewrite R.
Qed.

End StudyDom.

Section StudyDomExamples.
Import JS Content Study Props Sample2.

Lemma overlay_marks_blocked_videos_witness :
  Forall2
    (fun n n' =>
       tagName n' = tagName n /\ view n' = view n /\
       (isVideoRenderer n = true -> studyOverlays n <= 1 ->
          studyOverlays n' = if Scrape.shouldPlayVideo (view n) then 0 else 1) /\
       (isVideoRenderer n = false ->
          studyOverlays n' = studyOverlays n /\ opacity n' = opacity n /\
          position n' = position n /\ anchors n' = anchors n))
    (nodes results) (nodes (blockNonStudyVideos true youtube results)).
Proof.
  apply (overlay_marks_blocked_videos youtube). reflexivity.
Defined.

Lemma blockNonStudyVideos_idempotent_witness :
  blockNonStudyVideos true youtube (blockNonStudyVideos true youtube results) =
  blockNonStudyVideos true youtube results.
Proof.
  apply (blockNonStudyVideos_idempotent youtube); [reflexivity|].
  repeat constructor.
Defined.

Lemma cleanup_restores_two_renderer_kinds_witness :
  Forall2
    (fun n n' =>
       studyOverlays n' = 0 /\
       (tagName n = "ytd-rich-item-renderer" \/ tagName n = "ytd-video-renderer" ->
          opacity n' = "1" /\ position n' = EmptyString /\
          anchors n' = map enabledAnchor (anchors n)) /\
       (tagName n = "ytd-grid-video-renderer" \/
        tagName n = "ytd-compact-video-renderer" ->
        studyOverlays n = 0 -> Scrape.shouldPlayVideo (view n) = false ->
          opacity n' = "0.7" /\ position n' = "relative" /\
          anchors n' = map disabledAnchor (anchors n)))
    (nodes results)
    (nodes (cleanupYouTubeBlocks (blockNonStudyVideos true youtube results))).
Proof.
  apply (cleanup_restores_two_renderer_kinds youtube). reflexivity.
Defined.

(** The page of [results] after switching study mode on and off again:
    the blocked grid renderer keeps its opacity, the titled shelf stays
    hidden. *)
Example results_after_cleanup :
  map (fun n => (opacity n, display n, studyOverlays n))
      (nodes (cleanupYouTubeBlocks (blockNonStudyVideos true youtube results)))
  = [ ("0.7", EmptyString, 0); ("1", EmptyString, 0); (EmptyString, "none", 0) ].
Proof. reflexivity. Qed.

Lemma cleanup_leaves_titled_shorts_hidden_witness :
  Forall2
    (fun n n' =>
       (isReelRenderer n = true -> display n' = EmptyString) /\
       (isReelRenderer n = false -> matchesShortsSelector n = true ->
          display n' = "none") /\
       (matchesShortsSelector n = false -> display n' = display n))
    (nodes results)
    (nodes (cleanupYouTubeBlocks (blockNonStudyVideos true youtube results))).
Proof.
  apply (cleanup_leaves_titled_shorts_hidden youtube). reflexivity.
Defined.

(** X17.  The watch-page check leaves the player with exactly one
    overlay and the opacity 0.3 when the classifier blocks the watched
    video, and with no overlay and the opacity 1 when it lets it play
    (for a player that had at most one overlay); when neither the title
    nor the description element is found, the player is blocked. *)
Theorem watch_check_marks_player (d : Document) (p : Player) :
  player d = Some p ->
  watchOverlays p <= 1 ->
  exists p',
    player (watchPageCheck d) = Some p' /\
    nodes (watchPageCheck d) = nodes d /\
    watchOverlays p' = (if shouldPlayVideo (watchedVideo d) then 0 else 1) /\
    player_opacity p' = (if shouldPlayVideo (watchedVideo d) then "1" else "0.3") /\
    (watchTitle d = None -> watchDescription d = None ->
       shouldPlayVideo (watchedVideo d) = false).
Proof.
  intros E L. unfold watchPageCheck. rewrite E.
  replace (shouldPlayWatchPage _ _) with (shouldPlayVideo (watchedVideo d)).
  2:{ unfold shouldPlayWatchPage, shouldPlayVideo, watchedVideo.
      cbn [getVideoTitle getVideoDescription].
      now destruct (hasBlockKeyword _ || hasBlockKeyword _). }
  assert (N : watchTitle d = None -> watchDescription d = None ->
              shouldPlayVideo (watchedVideo d) = false).
  { intros Ht Hd. unfold watchedVideo. rewrite Ht, Hd. reflexivity. }
  destruct (shouldPlayVideo (watchedVideo d)); cbn [negb].
  - eexists. split; [reflexivity|]. cbn. repeat split; [|exact N].
    destruct (watchOverlays p) as [|[|k]]; [reflexivity | reflexivity | lia].
  - destruct (watchOverlays p) as [|[|k]] eqn:K; cbn [Nat.eqb];
      [ | | lia ]; eexists; (split; [reflexivity|]); cbn; repeat split; exact N.
Qed.

Lemma watch_check_marks_player_witness :
  exists p',
    player (watchPageCheck results) = Some p' /\
    watchOverlays p' = 1 /\ player_opacity p' = "0.3".
Proof.
  destruct (watch_check_marks_player results
              {| player_opacity := EmptyString; player_position := EmptyString;
                 watchOverlays := 0 |} eq_refl (Nat.le_0_l 1))
    as (p' & E & _ & O & Op & _).
  exists p'. split; [exact E|]. split; [exact O | exact Op].
Defined.

End StudyDomExamples.

(* ================================================================= *)
(** ** Scanning the forms of a page *)

Section FormScanning.
Import JS Content FormScan Props.

Variable window : Page.

Lemma Element_eqb_eq (a b : Element) : Element_eqb a b = true <-> a = b.
Proof.
  destruct a as [l1 t1 n1 i1], b as [l2 t2 n2 i2]. unfold Element_eqb. cbn.
  rewrite !andb_true_iff, !String.eqb_eq. split.
  - intros [[[-> ->] ->] ->]. reflexivity.
  - intros E. inversion E. tauto.
Qed.

(** Among the fields of a form, the elements of [analysis.sensitiveInputs]
    are the sensitive [input] fields. *)
Lemma isOneOf_sensitiveInputs (form : FormNode) (f : Field) :
  In f (fields form) ->
  isOneOf (sensitiveInputs (analyzeForm window (formOf form))) f = sensitiveField f.
Proof.
  intros Hf. unfold isOneOf, sensitiveField.
  destruct (String.eqb (localName (element f)) "input" && isSensitiveInput (element f)) eqn:S.
  - apply existsb_exists. exists (element f). split; [|now apply Element_eqb_eq].
    apply sensitiveInputs_In. apply andb_true_iff in S as [L I].
    apply String.eqb_eq in L. repeat split; try assumption.
    cbn [formOf descendants]. now apply in_map.
  - apply not_true_is_false. intros X. apply existsb_exists in X as (e & He & Ee).
    apply Element_eqb_eq in Ee. subst e.
    apply sensitiveInputs_In in He as (_ & L & I).
    rewrite L, I in S. discriminate.
Qed.

Lemma highlight_elements (inputs : list Element) (fs : list Field) :
  map element (highlightSuspiciousInputs inputs fs) = map element fs.
Proof.
  unfold highlightSuspiciousInputs. rewrite map_map. apply map_ext.
  intros f. now destruct (isOneOf inputs f).
Qed.

Lemma formOf_visitForm (form : FormNode) :
  formOf (visitForm window form) = formOf form.
Proof.
  unfold visitForm. destruct (isSuspicious _); [|reflexivity].
  unfold formOf. cbn [form_action fields]. now rewrite highlight_elements.
Qed.

Lemma highlight_idem (inputs : list Element) (fs : list Field) :
  highlightSuspiciousInputs inputs (highlightSuspiciousInputs inputs fs) =
  highlightSuspiciousInputs inputs fs.
Proof.
  unfold highlightSuspiciousInputs. rewrite map_map. apply map_ext. intros f.
  destruct (isOneOf inputs f) eqn:I; [|now rewrite I].
  change (isOneOf inputs (highlighted f)) with (isOneOf inputs f). now rewrite I.
Qed.

Lemma visitForm_idem (form : FormNode) :
  visitForm window (visitForm window form) = visitForm window form.
Proof.
  unfold visitForm at 1. rewrite formOf_visitForm.
  unfold visitForm. destruct (isSuspicious _) eqn:S; [|reflexivity].
  cbn [form_action fields warningAdded submitListeners].
  now rewrite highlight_idem.
Qed.

(** X18.  With the scanner on, scanning the page again changes nothing:
    no second submit listener is attached and no field is touched
    twice. *)
Theorem scanFormsOnPage_idempotent (forms : list FormNode) :
  scanFormsOnPage true window (scanFormsOnPage true window forms) =
  scanFormsOnPage true window forms.
Proof.
  unfold scanFormsOnPage. cbn [negb]. rewrite map_map.
  apply map_ext. intros f. apply visitForm_idem.
Qed.

(** X19.  With the scanner on, a form gets a submit listener exactly when
    it is suspicious and was not marked before, and is marked from then
    on; its sensitive [input] fields get the warning border and
    attribute when it is suspicious, and every other field of the page
    is left as it was. *)
Theorem scan_marks_suspicious_forms (forms : list FormNode) :
  Forall2
    (fun f f' =>
       formOf f' = formOf f /\
       warningAdded f' = warningAdded f || suspicious window f /\
       submitListeners f' =
         (submitListeners f +
          (if suspicious window f && negb (warningAdded f) then 1 else 0))%nat /\
       Forall2
         (fun x x' =>
            if suspicious window f && sensitiveField x
            then x' = highlighted x
            else x' = x)
         (fields f) (fields f'))
    forms (scanFormsOnPage true window forms).
Proof.
  unfold scanFormsOnPage. cbn [negb]. apply Forall2_map_right. intros f _.
  split; [apply formOf_visitForm|].
  unfold visitForm, suspicious.
  destruct (isSuspicious (analyzeForm window (formOf f))) eqn:S;
    cbn [warningAdded submitListeners fields andb orb].
  - split; [now rewrite orb_true_r|]. split.
    + destruct (warningAdded f); cbn [negb]; lia.
    + unfold highlightSuspiciousInputs. apply Forall2_map_right. intros x Hx.
      rewrite (isOneOf_sensitiveInputs f x Hx).
      now destruct (sensitiveField x).
  - split; [now rewrite orb_false_r|]. split; [lia|].
    rewrite <- (map_id (fields f)) at 2. apply Forall2_map_right. now intros.
Qed.

(** X20.  With the scanner off, a scan takes the warning border, shadow
    and attribute away from every field that carries the attribute and
    touches nothing else: in particular the submit listeners and the
    marks of the forms stay. *)
Theorem scan_off_keeps_listeners (forms : list FormNode) :
  Forall2
    (fun f f' =>
       formOf f' = formOf f /\
       warningAdded f' = warningAdded f /\
       submitListeners f' = submitListeners f /\
       Forall2
         (fun x x' =>
            securityWarning x' = false /\
            if securityWarning x then x' = unhighlighted x else x' = x)
         (fields f) (fields f'))
    forms (scanFormsOnPage false window forms).
Proof.
  unfold scanFormsOnPage. cbn [negb]. apply Forall2_map_right. intros f _.
  cbn [warningAdded submitListeners fields]. repeat split.
  - unfold formOf. cbn [form_action fields]. f_equal.
    unfold removeInputHighlights. rewrite map_map. apply map_ext.
    intros x. now destruct (securityWarning x).
  - unfold removeInputHighlights. apply Forall2_map_right. intros x _.
    destruct (securityWarning x) eqn:W; [now split | now split].
Qed.

Lemma unhighlight_fresh (x : Field) (b : bool) :
  freshField x ->
  (if securityWarning (if b then highlighted x else x)
   then unhighlighted (if b then highlighted x else x)
   else (if b then highlighted x else x)) = x.
Proof.
  intros (B & S & W). destruct x as [e bo sh w]. cbn in *. subst.
  now destruct b.
Qed.

(** X21.  On a page whose forms and fields are as delivered, switching
    the scanner on and then off gives every field back as it was, but
    each suspicious form keeps the mark and the one submit listener it
    got. *)
Theorem scan_on_off_round_trip (forms : list FormNode) :
  Forall freshForm forms ->
  Forall2
    (fun f f'' =>
       fields f'' = fields f /\
       form_action f'' = form_action f /\
       warningAdded f'' = suspicious window f /\
       submitListeners f'' = (if suspicious window f then 1 else 0))
    forms
    (scanFormsOnPage false window (scanFormsOnPage true window forms)).
Proof.
  intros F. unfold scanFormsOnPage. cbn [negb]. rewrite map_map.
  apply Forall2_map_right. intros f Hf.
  rewrite Forall_forall in F. destruct (F f Hf) as (W & L & Fr).
  cbn [fields form_action warningAdded submitListeners].
  unfold visitForm, suspicious.
  destruct (isSuspicious (analyzeForm window (formOf f))) eqn:S;
    cbn [fields form_action warningAdded submitListeners].
  - rewrite W, L. repeat split.
    unfold removeInputHighlights, highlightSuspiciousInputs. rewrite map_map.
    rewrite <- (map_id (fields f)) at 2. apply map_ext_in. intros x Hx.
    apply unhighlight_fresh. rewrite Forall_forall in Fr. now apply Fr.
  - rewrite W, L. repeat split.
    unfold removeInputHighlights.
    rewrite <- (map_id (fields f)) at 2. apply map_ext_in. intros x Hx.
    rewrite Forall_forall in Fr. destruct (Fr x Hx) as (_ & _ & Wx). now rewrite Wx.
Qed.

End FormScanning.

Lemma scan_on_off_round_trip_witness :
  Forall2
    (fun f f'' =>
       FormScan.fields f'' = FormScan.fields f /\
       FormScan.form_action f'' = FormScan.form_action f /\
       FormScan.warningAdded f'' = Props.suspicious (Sample.pageAt "bank.com") f /\
       FormScan.submitListeners f'' =
         (if Props.suspicious (Sample.pageAt "bank.com") f then 1 else 0))
    [Sample2.loginForm]
    (FormScan.scanFormsOnPage false (Sample.pageAt "bank.com")
       (FormScan.scanFormsOnPage true (Sample.pageAt "bank.com") [Sample2.loginForm])).
Proof.
  apply (scan_on_off_round_trip (Sample.pageAt "bank.com") [Sample2.loginForm]).
  repeat constructor.
Defined.

(** The login form of [bank.com] after the scanner was switched on and
    off: one listener, no highlight. *)
Example loginForm_after_on_off :
  map (fun f => (FormScan.submitListeners f,
                 map FormScan.securityWarning (FormScan.fields f)))
      (FormScan.scanFormsOnPage false (Sample.pageAt "bank.com")
         (FormScan.scanFormsOnPage true (Sample.pageAt "bank.com") [Sample2.loginForm]))
  = [ (1, [false; false]) ].
Proof. reflexivity. Qed.

(* ================================================================= *)
(** ** The content script over the life of a page *)

Section PageLife.
Import JS Content ContentScript Props.

Variable window : Page.

(** An invariant of the state that [init] establishes and every event
    keeps holds after any run. *)
Lemma run_invariant (Inv : State -> Prop) (result : Keys) (s : State) :
  Inv (init window result s) ->
  (forall s' e, Inv s' -> Inv (step window s' e)) ->
  forall events, Inv (run window result events s).
Proof.
  intros H0 Hstep events. unfold run.
  generalize dependent (init window result s).
  induction events as [|e events IH]; intros s0 H; simpl; [exact H|].
  apply IH, Hstep, H.
Qed.

Lemma onChanged_parts (changes : Keys) (s : State) :
  document (onChanged window changes s) =
    match key_youtubeStudyMode changes with
    | Some newValue =>
        if Study.isYouTube window
        then Study.initYouTubeStudyMode newValue window (document s)
        else document s
    | None => document s
    end /\
  forms (onChanged window changes s) =
    match key_formAnalysisMode changes with
    | Some newValue => FormScan.scanFormsOnPage newValue window (forms s)
    | None => forms s
    end /\
  banners (onChanged window changes s) =
    match key_urlShortenerMode changes with
    | Some true =>
        if isShortener (detectUrlShortener window)
        then showShortenerWarning (banners s) else banners s
    | Some false => Nat.pred (banners s)
    | None => banners s
    end.
Proof.
  destruct changes as [[y|] [f|] [[|]|]]; repeat split.
Qed.

(** X22.  On a page that is not YouTube, neither [init] nor any later
    event changes the part of the document that the study mode writes
    to. *)
Theorem document_untouched_off_youtube
        (result : Keys) (events : list Event) (s : State) :
  Study.isYouTube window = false ->
  document (run window result events s) = document s.
Proof.
  intros N.
  apply (run_invariant (fun s' => document s' = document s)).
  - unfold init. cbn [document]. now rewrite N.
  - intros s' [changes|] H; cbn [step document]; [|exact H].
    destruct (onChanged_parts changes s') as (D & _). rewrite D, N, H.
    now destruct (key_youtubeStudyMode changes).
Qed.

(** X23.  On a page loaded without a banner there is never more than one
    shortener banner, whatever the settings do and however often the
    banner is dismissed; on a page that is not a shortener there is
    none; and a change that switches the alert off leaves none. *)
Theorem at_most_one_banner (result : Keys) (events : list Event) (s : State) :
  banners s = 0 ->
  banners (run window result events s) <= 1 /\
  (isShortener (detectUrlShortener window) = false ->
     banners (run window result events s) = 0) /\
  (forall changes,
     key_urlShortenerMode changes = Some false ->
     banners (step window (run window result events s) (Changed changes)) = 0).
Proof.
  intros Z.
  assert (I : banners (run window result events s) <= 1 /\
              (isShortener (detectUrlShortener window) = false ->
               banners (run window result events s) = 0)).
  { apply (run_invariant
             (fun s' => banners s' <= 1 /\
                        (isShortener (detectUrlShortener window) = false ->
                         banners s' = 0))).
    - unfold init. cbn [banners]. rewrite Z.
      destruct (isShortener (detectUrlShortener window));
        destruct (orFalse (key_urlShortenerMode result)); cbn;
        split; try lia; intros; (discriminate || reflexivity).
    - intros s' [changes|] [L N]; cbn [step banners].
      + destruct (onChanged_parts changes s') as (_ & _ & B). rewrite B.
        unfold showShortenerWarning.
        destruct (key_urlShortenerMode changes) as [[|]|];
          destruct (isShortener (detectUrlShortener window));
          destruct (banners s') as [|[|k]]; cbn; split; try lia;
          intros; try discriminate; try reflexivity;
          try (specialize (N eq_refl); discriminate).
      + unfold dismissBanner. split; [lia|]. intros E. rewrite (N E). reflexivity. }
  destruct I as [L N]. split; [exact L|]. split; [exact N|].
  intros changes E. cbn [step].
  destruct (onChanged_parts changes (run window result events s)) as (_ & _ & B).
  rewrite B, E. lia.
Qed.

Lemma scan_keeps_listener_bound (mode : bool) (fs : list FormScan.FormNode) :
  Forall (fun f => FormScan.submitListeners f <= 1 /\
                   (FormScan.warningAdded f = false ->
                    FormScan.submitListeners f = 0)) fs ->
  Forall (fun f => FormScan.submitListeners f <= 1 /\
                   (FormScan.warningAdded f = false ->
                    FormScan.submitListeners f = 0))
         (FormScan.scanFormsOnPage mode window fs) /\
  map FormScan.formOf (FormScan.scanFormsOnPage mode window fs) =
  map FormScan.formOf fs.
Proof.
  intros H. unfold FormScan.scanFormsOnPage.
  destruct mode; cbn [negb]; rewrite Forall_map, map_map; split.
  - rewrite Forall_forall in *. intros f Hf. destruct (H f Hf) as [L W].
    unfold FormScan.visitForm. destruct (isSuspicious _); [|now split].
    cbn [FormScan.submitListeners FormScan.warningAdded].
    split; [|discriminate].
    destruct (FormScan.warningAdded f); [exact L | rewrite (W eq_refl); lia].
  - apply map_ext. intros f. apply formOf_visitForm.
  - rewrite Forall_forall in *. intros f Hf. exact (H f Hf).
  - apply map_ext. intros f. unfold FormScan.formOf.
    cbn [FormScan.form_action FormScan.fields]. f_equal.
    unfold FormScan.removeInputHighlights. rewrite map_map. apply map_ext.
    intros x. now destruct (FormScan.securityWarning x).
Qed.

(** X24.  On a page whose forms are as delivered, no form ever carries
    more than one submit listener of the scanner, however often the
    settings change, and the scanner never alters the action or the
    elements of a form. *)
Theorem at_most_one_submit_listener
        (result : Keys) (events : list Event) (s : State) :
  Forall freshForm (forms s) ->
  Forall (fun f => FormScan.submitListeners f <= 1)
         (forms (run window result events s)) /\
  map FormScan.formOf (forms (run window result events s)) =
  map FormScan.formOf (forms s).
Proof.
  intros F.
  assert (I : Forall (fun f => FormScan.submitListeners f <= 1 /\
                        (FormScan.warningAdded f = false ->
                         FormScan.submitListeners f = 0))
                     (forms (run window result events s)) /\
              map FormScan.formOf (forms (run window result events s)) =
              map FormScan.formOf (forms s)).
  { apply (run_invariant
             (fun s' =>
                Forall (fun f => FormScan.submitListeners f <= 1 /\
                          (FormScan.warningAdded f = false ->
                           FormScan.submitListeners f = 0)) (forms s') /\
                map FormScan.formOf (forms s') = map FormScan.formOf (forms s))).
    - assert (J : Forall (fun f => FormScan.submitListeners f <= 1 /\
                          (FormScan.warningAdded f = false ->
                           FormScan.submitListeners f = 0)) (forms s)).
      { rewrite Forall_forall in *. intros f Hf.
        destruct (F f Hf) as (_ & L & _). rewrite L. split; [lia | reflexivity]. }
      unfold init. cbn [forms].
      destruct (orFalse (key_formAnalysisMode result)); [|now split].
      apply (scan_keeps_listener_bound true _ J).
    - intros s' [changes|] [J M]; cbn [step forms]; [|now split].
      destruct (onChanged_parts changes s') as (_ & Fm & _). rewrite Fm.
      destruct (key_formAnalysisMode changes) as [b|]; [|now split].
      destruct (scan_keeps_listener_bound b _ J) as [J' M'].
      split; [exact J' | now rewrite M', M]. }
  destruct I as [J M]. split; [|exact M].
  rewrite Forall_forall in *. intros f Hf. now destruct (J f Hf).
Qed.

End PageLife.

Lemma document_untouched_off_youtube_witness :
  ContentScript.document
    (ContentScript.run (Sample.pageAt "bank.com") Sample2.noKeys
       [ContentScript.Changed
          {| ContentScript.key_youtubeStudyMode := Some true;
             ContentScript.key_formAnalysisMode := None;
             ContentScript.key_urlShortenerMode := None |}]
       (Sample2.loaded [Sample2.loginForm]))
  = Sample2.results.
Proof.
  apply (document_untouched_off_youtube (Sample.pageAt "bank.com")). reflexivity.
Defined.

Lemma at_most_one_banner_witness :
  ContentScript.banners
    (ContentScript.run (Sample.pageAt "bit.ly") (Sample2.shortenerKey true)
       [ContentScript.Changed (Sample2.shortenerKey true);
        ContentScript.Dismiss;
        ContentScript.Changed (Sample2.shortenerKey true)]
       (Sample2.loaded [])) <= 1.
Proof.
  apply (at_most_one_banner (Sample.pageAt "bit.ly")). reflexivity.
Defined.

Lemma at_most_one_submit_listener_witness :
  Forall (fun f => FormScan.submitListeners f <= 1)
    (ContentScript.forms
       (ContentScript.run (Sample.pageAt "bank.com") (Sample2.formKey true)
          [ContentScript.Changed (Sample2.formKey false);
           ContentScript.Changed (Sample2.formKey true)]
          (Sample2.loaded [Sample2.loginForm]))).
Proof.
  apply (at_most_one_submit_listener (Sample.pageAt "bank.com")).
  repeat constructor.
Defined.

(* ================================================================= *)
(** ** The entries of the link scan *)

Section LinkEntries.
Import JS Content Spec LinkScan.

Variable window : Page.

Lemma substring0_length (n : nat) (s : string) :
  String.length (substring0 n s) <= n.
Proof.
  unfold substring0. revert s. induction n as [|n IH]; intros [|c s]; simpl; try lia.
  specialize (IH s). lia.
Qed.

Lemma substring0_prefix (n : nat) (s : string) :
  startsWith s (substring0 n s) = true.
Proof.
  unfold substring0. revert s. induction n as [|n IH]; intros [|c s]; simpl;
    try reflexivity.
  now rewrite Ascii.eqb_refl, IH.
Qed.

(** X25.  Every entry that the link scan reports comes from an anchor of
    the page: it carries that anchor's [href], a domain that is a member
    of the shortener list, and as text a prefix of at most 50 code units
    of the anchor's trimmed text. *)
Theorem reported_entry_comes_from_a_link (links : list Link) (e : ShortenedLink) :
  In e (linksFound window links) ->
  exists l,
    In l links /\
    sl_url e = link_href l /\
    In (sl_domain e) URL_SHORTENERS /\
    String.length (sl_text e) <= 50 /\
    startsWith (trim (textContent l)) (sl_text e) = true.
Proof.
  unfold linksFound. rewrite forEach_visitLink. cbn [app].
  intros H. apply in_map_iff in H as (l & <- & Hl).
  apply filter_In in Hl as [Hl M].
  exists l. split; [exact Hl|]. split; [reflexivity|].
  unfold entryOf. cbn [sl_domain sl_text]. split; [|split].
  - unfold isReported in M. destruct (scannedDomain window l) as [d|];
      [now apply someShortener_iff | discriminate].
  - apply substring0_length.
  - apply substring0_prefix.
Qed.

End LinkEntries.

Lemma reported_entry_comes_from_a_link_witness :
  exists l,
    In l [ {| Content.link_href := "https://www.bit.ly/a";
              Content.textContent := "  a very long anchor text that runs well past the fifty code units kept  " |} ] /\
    Content.link_href l = "https://www.bit.ly/a".
Proof.
  destruct (reported_entry_comes_from_a_link (Sample.pageAt "a.com")
    [ {| Content.link_href := "https://www.bit.ly/a";
         Content.textContent := "  a very long anchor text that runs well past the fifty code units kept  " |} ]
    {| Content.sl_url := "https://www.bit.ly/a"; Content.sl_domain := "bit.ly";
       Content.sl_text := "a very long anchor text that runs well past the fi" |})
    as (l & Hl & U & _).
  - left. reflexivity.
  - exists l. split; [exact Hl | now rewrite <- U].
Defined.
